(** * MnemoMind session coordinator: a shallow embedding

    The React component [App] (src/App.tsx, and its API-key variant
    src/unnamed/part_000) and the [UploadModal] component
    (src/components/UploadModal.tsx) are embedded as state transformers.

    - The [useState] cells of a component form a record.
    - A handler is a computation in the monad [Act]: it threads the pending
      component state, appends to a trace of observable effects (remote
      service calls, console output), and may throw.
    - A handler reads state variables from the closure of the render that
      created it.  Handlers therefore take that render's state [r] as an
      argument and are fired with [fire h s := h s s].  Setter calls act on
      the threaded state, in program order.
    - The result of every awaited remote call is supplied by the caller
      (the environment), as a [Result].
    - A handler runs to completion before the next one is fired.  The
      [beforeunload] listener, a fire-and-forget deletion that changes no
      state, is left out. *)

From Stdlib Require Import String Ascii List Bool Arith NArith Lia.
From Stdlib Require Import DecimalString DecimalNat.
Import ListNotations.
Local Open Scope string_scope.
Local Open Scope list_scope.

(** ** JavaScript values the handlers depend on *)

Module Js.

(** A thrown value: an [Error] object with its [message], or any other
    value, of which the code observes the truthiness and [String(err)]. *)
Inductive Thrown : Type :=
| ErrorObj (message : string)
| Other (isTruthy : bool) (asString : string).

Inductive Result (A : Type) : Type :=
| Ok (a : A)
| Threw (e : Thrown).
Arguments Ok {A} a.
Arguments Threw {A} e.

Definition truthyThrown (e : Thrown) : bool :=
  match e with
  | ErrorObj _ => true
  | Other t _ => t
  end.

(** [err instanceof Error ? err.message : String(err)] *)
Definition thrownText (e : Thrown) : string :=
  match e with
  | ErrorObj m => m
  | Other _ s => s
  end.

(** Truthiness of a [string | null]: [null] and the empty string are falsy. *)
Definition truthy (v : option string) : bool :=
  match v with
  | None => false
  | Some EmptyString => false
  | Some (String _ _) => true
  end.

(** [`${n}`] for a non-negative integer. *)
Definition numToString (n : nat) : string :=
  NilEmpty.string_of_uint (Nat.to_uint n).

(** [`${Date.now()}`]: a millisecond count, kept in binary. *)
Definition timeToString (ms : N) : string :=
  NilEmpty.string_of_uint (N.to_uint ms).

Definition lowerAscii (c : ascii) : ascii :=
  let n := nat_of_ascii c in
  if ((65 <=? n)%nat && (n <=? 90)%nat)%bool then ascii_of_nat (n + 32) else c.

(** Lower-casing of ASCII text: the letters A-Z are lowered and every other
    byte is kept.  On text that is ASCII throughout this is what
    [String.prototype.toLowerCase] returns; the built-in also lowers letters
    outside ASCII (U+212A KELVIN SIGN becomes [k]), which this function does
    not.  What depends on the lower-casing of arbitrary text is stated over
    an abstract lower-casing, see [AppKey.handleUploadAndStartChatWith]. *)
Fixpoint toLowerCase (s : string) : string :=
  match s with
  | EmptyString => EmptyString
  | String c rest => String (lowerAscii c) (toLowerCase rest)
  end.

Fixpoint includes (s sub : string) : bool :=
  if prefix sub s then true
  else match s with
       | EmptyString => false
       | String _ rest => includes rest sub
       end.

End Js.
Export Js.

(** ** Types of src/types.ts

    The file itself is not among the sources; the enumerations and the shape
    of a chat message are read off their uses in src/App.tsx
    ([AppStatus.Initializing], [SearchSource.FileSearch],
    [{ role: 'user', parts: [{ text: message }] }], ...). *)

Inductive AppStatus : Type := Initializing | Chatting | Uploading | Error.

Inductive SearchSource : Type := FileSearch | GoogleSearch.

Definition AppStatus_eqb (a b : AppStatus) : bool :=
  match a, b with
  | Initializing, Initializing | Chatting, Chatting
  | Uploading, Uploading | Error, Error => true
  | _, _ => false
  end.

Definition SearchSource_eqb (a b : SearchSource) : bool :=
  match a, b with
  | FileSearch, FileSearch | GoogleSearch, GoogleSearch => true
  | _, _ => false
  end.

Inductive Role : Type := user | model.

(** Modelled from the spec: the declaration of a grounding chunk lives in
    src/types.ts, which is missing; a citation is either a document excerpt
    handed back verbatim by the index service or a web result (url, title). *)
Inductive GroundingChunk : Type :=
| RetrievedContext (text : string)
| Web (uri title : string).

Record Part : Type := { text : string }.

(** [ChatMessage]; [groundingChunks] is absent on user and error messages. *)
Record ChatMessage : Type := {
  role : Role;
  parts : list Part;
  groundingChunks : option (list GroundingChunk)
}.

(** What [fileSearch] and [googleSearch] resolve to. *)
Record QueryResult : Type := {
  resultText : string;
  resultChunks : option (list GroundingChunk)
}.

(** The part of a browser [File] the coordinator looks at. *)
Record File : Type := { name : string; size : nat }.

Record UploadProgress : Type := {
  current : nat;
  total : nat;
  message : option string;
  fileName : option string
}.

(** ** Observable effects: calls into geminiService, console, timers *)

Inductive Effect : Type :=
| Initialize
| CreateRagStore (displayName : string)
| UploadToRagStore (ragStoreName : string) (file : File)
| GenerateExampleQuestions (ragStoreName : string)
| DeleteRagStore (ragStoreName : string)
| CallFileSearch (ragStoreName : option string) (query : string)
| CallGoogleSearch (query : string)
| GenerateGoogleSearchQuestions
| HasSelectedApiKey
| OpenSelectKey
| SetTimeout (ms : nat)
| Alert (msg : string)
| ConsoleLog (msg : string)
| ConsoleError (msg : string).

(** ** The handler monad

    [Act St A]: pending state, plus the trace of effects; each effect is
    recorded together with the pending state at the moment it is issued. *)

Section ActMonad.

Variable St : Type.

Definition Trace : Type := list (Effect * St).

Definition Act (A : Type) : Type := St -> Trace -> Result A * St * Trace.

Definition ret {A} (a : A) : Act A := fun s t => (Ok a, s, t).

Definition bind {A B} (m : Act A) (k : A -> Act B) : Act B :=
  fun s t =>
    match m s t with
    | (Ok a, s', t') => k a s' t'
    | (Threw e, s', t') => (Threw e, s', t')
    end.

Definition throw {A} (e : Thrown) : Act A := fun s t => (Threw e, s, t).

(** [try { body } catch (err) { handler }] *)
Definition tryCatch {A} (body : Act A) (handler : Thrown -> Act A) : Act A :=
  fun s t =>
    match body s t with
    | (Ok a, s', t') => (Ok a, s', t')
    | (Threw e, s', t') => handler e s' t'
    end.

(** [try { body } finally { cleanup }] *)
Definition tryFinally {A} (body : Act A) (cleanup : Act unit) : Act A :=
  fun s t =>
    match body s t with
    | (r, s', t') =>
        match cleanup s' t' with
        | (Ok _, s'', t'') => (r, s'', t'')
        | (Threw e, s'', t'') => (Threw e, s'', t'')
        end
    end.

(** A state setter [setX(v)] or [setX(prev => ...)]. *)
Definition update (f : St -> St) : Act unit := fun s t => (Ok tt, f s, t).

(** An effect that returns nothing the handler looks at. *)
Definition emit (e : Effect) : Act unit := fun s t => (Ok tt, s, t ++ [(e, s)]).

(** [await call], the environment settling it with [r]. *)
Definition await {A} (call : Effect) (r : Result A) : Act A :=
  fun s t => (r, s, t ++ [(call, s)]).

Definition when (b : bool) (m : Act unit) : Act unit :=
  if b then m else ret tt.

(** Fire a handler from the render of state [s]. *)
Definition fire {A} (h : St -> Act A) (s : St) : Result A * St * Trace :=
  h s s [].

Definition stateOf {A} (o : Result A * St * Trace) : St := snd (fst o).
Definition traceOf {A} (o : Result A * St * Trace) : Trace := snd o.
Definition resultOf {A} (o : Result A * St * Trace) : Result A := fst (fst o).

(** The effects of a trace, in order, without the state stamps. *)
Definition effects (t : Trace) : list Effect := map fst t.

End ActMonad.

Arguments ret {St A} a.
Arguments bind {St A B} m k.
Arguments throw {St A} e.
Arguments tryCatch {St A} body handler.
Arguments tryFinally {St A} body cleanup.
Arguments update {St} f.
Arguments emit {St} e.
Arguments await {St A} call r.
Arguments when {St} b m.
Arguments fire {St A} h s.
Arguments stateOf {St A} o.
Arguments traceOf {St A} o.
Arguments resultOf {St A} o.
Arguments effects {St} t.

Declare Scope act_scope.
Delimit Scope act_scope with act.
Notation "x <- m ;; k" := (bind m (fun x => k))
  (at level 61, m at next level, right associativity) : act_scope.
Notation "m ;; k" := (bind m (fun _ => k))
  (at level 61, right associativity) : act_scope.
Local Open Scope act_scope.

(** ** Code shared verbatim by src/App.tsx and src/unnamed/part_000 *)

(** The label computed at the end of [handleUploadAndStartChat]
    (src/App.tsx lines 93-100). *)
Definition docName (files : list File) : string :=
  match files with
  | [f0] => name f0
  | [f0; f1] => (name f0 ++ " & " ++ name f1)%string
  | _ => (numToString (List.length files) ++ " documents")%string
  end.

(** The message [handleError] stores:
    [`${message}${err ? `: ${err instanceof Error ? err.message : String(err)}` : ''}`] *)
Definition errorText (msg : string) (err : Thrown) : string :=
  (msg ++ (if truthyThrown err then ": " ++ thrownText err else ""))%string.

(** [`(${i + 1}/${files.length}) ${files[i].name}`] *)
Definition progressFileName (i len : nat) (f : File) : string :=
  ("(" ++ numToString (i + 1) ++ "/" ++ numToString len ++ ") " ++ name f)%string.

(** The functional update of the upload loop:
    [prev => ({ ...(prev!), current: i + 1, message: ..., fileName: ... })].
    Only [total] survives from [prev]; the loop runs after the progress was
    set, so [prev] is an object there (a spread of [null] would carry no
    [total] at all, rendered here as 0). *)
Definition loopProgress (i len : nat) (f : File)
    (prev : option UploadProgress) : option UploadProgress :=
  Some {| current := i + 1;
          total := match prev with Some p => total p | None => 0 end;
          message := Some "Generating embeddings...";
          fileName := Some (progressFileName i len f) |}.

Definition userMessage (msg : string) : ChatMessage :=
  {| role := user; parts := [ {| text := msg |} ]; groundingChunks := None |}.

Definition modelMessage (result : QueryResult) : ChatMessage :=
  {| role := model;
     parts := [ {| text := resultText result |} ];
     groundingChunks := resultChunks result |}.

Definition errorMessage : ChatMessage :=
  {| role := model;
     parts := [ {| text := "Sorry, I encountered an error. Please try again." |} ];
     groundingChunks := None |}.

(** What the environment answers to the awaited calls of one
    [handleUploadAndStartChat]. *)
Record UploadOracle : Type := {
  now : N;                                 (* Date.now() *)
  created : Result string;                 (* createRagStore *)
  uploaded : nat -> Result unit;           (* uploadToRagStore, per file index *)
  questions : Result (list string)         (* generateExampleQuestions *)
}.

(** ** src/App.tsx *)

Module App.

Record State : Type := {
  status : AppStatus;
  searchSource : SearchSource;
  error : option string;
  isUploadModalOpen : bool;
  uploadProgress : option UploadProgress;
  activeRagStoreName : option string;
  chatHistory : list ChatMessage;
  isQueryLoading : bool;
  exampleQuestions : list string;
  documentName : string
}.

(** The [useState] initial values. *)
Definition initial : State :=
  {| status := Initializing; searchSource := FileSearch; error := None;
     isUploadModalOpen := false; uploadProgress := None;
     activeRagStoreName := None; chatHistory := []; isQueryLoading := false;
     exampleQuestions := []; documentName := "" |}.

Definition setStatus (v : AppStatus) : Act State unit :=
  update (fun s =>
    {| status := v; searchSource := searchSource s; error := error s;
       isUploadModalOpen := isUploadModalOpen s; uploadProgress := uploadProgress s;
       activeRagStoreName := activeRagStoreName s; chatHistory := chatHistory s;
       isQueryLoading := isQueryLoading s; exampleQuestions := exampleQuestions s;
       documentName := documentName s |}).

Definition setSearchSource (v : SearchSource) : Act State unit :=
  update (fun s =>
    {| status := status s; searchSource := v; error := error s;
       isUploadModalOpen := isUploadModalOpen s; uploadProgress := uploadProgress s;
       activeRagStoreName := activeRagStoreName s; chatHistory := chatHistory s;
       isQueryLoading := isQueryLoading s; exampleQuestions := exampleQuestions s;
       documentName := documentName s |}).

Definition setError (v : option string) : Act State unit :=
  update (fun s =>
    {| status := status s; searchSource := searchSource s; error := v;
       isUploadModalOpen := isUploadModalOpen s; uploadProgress := uploadProgress s;
       activeRagStoreName := activeRagStoreName s; chatHistory := chatHistory s;
       isQueryLoading := isQueryLoading s; exampleQuestions := exampleQuestions s;
       documentName := documentName s |}).

Definition setIsUploadModalOpen (v : bool) : Act State unit :=
  update (fun s =>
    {| status := status s; searchSource := searchSource s; error := error s;
       isUploadModalOpen := v; uploadProgress := uploadProgress s;
       activeRagStoreName := activeRagStoreName s; chatHistory := chatHistory s;
       isQueryLoading := isQueryLoading s; exampleQuestions := exampleQuestions s;
       documentName := documentName s |}).

(** [setUploadProgress] in its functional form; [setUploadProgress(v)] is
    [setUploadProgressWith (fun _ => v)]. *)
Definition setUploadProgressWith
    (f : option UploadProgress -> option UploadProgress) : Act State unit :=
  update (fun s =>
    {| status := status s; searchSource := searchSource s; error := error s;
       isUploadModalOpen := isUploadModalOpen s; uploadProgress := f (uploadProgress s);
       activeRagStoreName := activeRagStoreName s; chatHistory := chatHistory s;
       isQueryLoading := isQueryLoading s; exampleQuestions := exampleQuestions s;
       documentName := documentName s |}).

Definition setUploadProgress (v : option UploadProgress) : Act State unit :=
  setUploadProgressWith (fun _ => v).

Definition setActiveRagStoreName (v : option string) : Act State unit :=
  update (fun s =>
    {| status := status s; searchSource := searchSource s; error := error s;
       isUploadModalOpen := isUploadModalOpen s; uploadProgress := uploadProgress s;
       activeRagStoreName := v; chatHistory := chatHistory s;
       isQueryLoading := isQueryLoading s; exampleQuestions := exampleQuestions s;
       documentName := documentName s |}).

(** [setChatHistory] in its functional form. *)
Definition setChatHistoryWith
    (f : list ChatMessage -> list ChatMessage) : Act State unit :=
  update (fun s =>
    {| status := status s; searchSource := searchSource s; error := error s;
       isUploadModalOpen := isUploadModalOpen s; uploadProgress := uploadProgress s;
       activeRagStoreName := activeRagStoreName s; chatHistory := f (chatHistory s);
       isQueryLoading := isQueryLoading s; exampleQuestions := exampleQuestions s;
       documentName := documentName s |}).

Definition setChatHistory (v : list ChatMessage) : Act State unit :=
  setChatHistoryWith (fun _ => v).

Definition setIsQueryLoading (v : bool) : Act State unit :=
  update (fun s =>
    {| status := status s; searchSource := searchSource s; error := error s;
       isUploadModalOpen := isUploadModalOpen s; uploadProgress := uploadProgress s;
       activeRagStoreName := activeRagStoreName s; chatHistory := chatHistory s;
       isQueryLoading := v; exampleQuestions := exampleQuestions s;
       documentName := documentName s |}).

Definition setExampleQuestions (v : list string) : Act State unit :=
  update (fun s =>
    {| status := status s; searchSource := searchSource s; error := error s;
       isUploadModalOpen := isUploadModalOpen s; uploadProgress := uploadProgress s;
       activeRagStoreName := activeRagStoreName s; chatHistory := chatHistory s;
       isQueryLoading := isQueryLoading s; exampleQuestions := v;
       documentName := documentName s |}).

Definition setDocumentName (v : string) : Act State unit :=
  update (fun s =>
    {| status := status s; searchSource := searchSource s; error := error s;
       isUploadModalOpen := isUploadModalOpen s; uploadProgress := uploadProgress s;
       activeRagStoreName := activeRagStoreName s; chatHistory := chatHistory s;
       isQueryLoading := isQueryLoading s; exampleQuestions := exampleQuestions s;
       documentName := v |}).

(** The mount effect: [geminiService.initialize(); setStatus(Chatting)]. *)
Definition onMount (r : State) : Act State unit :=
  emit Initialize ;;
  setStatus Chatting.

Definition handleError (msg : string) (err : Thrown) : Act State unit :=
  emit (ConsoleError msg) ;;
  setError (Some (errorText msg err)) ;;
  setStatus Error.

Definition clearError (r : State) : Act State unit :=
  setError None ;;
  setStatus Chatting.

(** The [for] loop of [handleUploadAndStartChat], from index [i] on, with
    [rest] the files [files[i]], [files[i+1]], ... *)
Fixpoint uploadLoop (ragStoreName : string) (len i : nat) (rest : list File)
    (uploaded : nat -> Result unit) : Act State unit :=
  match rest with
  | [] => ret tt
  | f :: rest' =>
      setUploadProgressWith (loopProgress i len f) ;;
      await (UploadToRagStore ragStoreName f) (uploaded i) ;;
      uploadLoop ragStoreName len (i + 1) rest' uploaded
  end.

Definition handleUploadAndStartChat (files : list File) (o : UploadOracle)
    (r : State) : Act State unit :=
  if (List.length files =? 0)%nat then ret tt else
  setStatus Uploading ;;
  let totalSteps := List.length files + 2 in
  setUploadProgress (Some {| current := 0; total := totalSteps;
                             message := Some "Creating document index...";
                             fileName := None |}) ;;
  tryFinally
    (tryCatch
       (let storeName := ("chat-session-" ++ timeToString (now o))%string in
        ragStoreName <- await (CreateRagStore storeName) (created o) ;;
        setUploadProgress (Some {| current := 1; total := totalSteps;
                                   message := Some "Generating embeddings...";
                                   fileName := None |}) ;;
        uploadLoop ragStoreName (List.length files) 0 files (uploaded o) ;;
        setUploadProgress (Some {| current := List.length files + 1; total := totalSteps;
                                   message := Some "Generating suggestions...";
                                   fileName := Some "" |}) ;;
        qs <- await (GenerateExampleQuestions ragStoreName) (questions o) ;;
        setExampleQuestions qs ;;
        setUploadProgress (Some {| current := totalSteps; total := totalSteps;
                                   message := Some "All set!";
                                   fileName := Some "" |}) ;;
        emit (SetTimeout 500) ;;
        setDocumentName (docName files) ;;
        setActiveRagStoreName (Some ragStoreName) ;;
        setChatHistory [] ;;
        setStatus Chatting ;;
        setIsUploadModalOpen false)
       (fun err => handleError "Failed to start chat session" err))
    (setUploadProgress None ;;
     when (negb (AppStatus_eqb (status r) Error)) (setStatus Chatting)).

Definition handleEndChat (r : State) : Act State unit :=
  when (truthy (activeRagStoreName r))
    (match activeRagStoreName r with
     | Some h => emit (DeleteRagStore h)
     | None => ret tt
     end) ;;
  setActiveRagStoreName None ;;
  setChatHistory [] ;;
  setExampleQuestions [] ;;
  setDocumentName "" ;;
  setSearchSource FileSearch ;;
  setStatus Chatting.

(** The [.catch] attached to the [deleteRagStore] promise of
    [handleEndChat]; it runs when that promise settles. *)
Definition onDeleteSettled (outcome : Result unit) (r : State) : Act State unit :=
  match outcome with
  | Ok _ => ret tt
  | Threw _ => emit (ConsoleError "Failed to delete RAG store in background")
  end.

Definition handleFileSearchClick (r : State) : Act State unit :=
  when (truthy (activeRagStoreName r)
        || SearchSource_eqb (searchSource r) GoogleSearch)
    (handleEndChat r) ;;
  setIsUploadModalOpen true.

Definition handleSendMessage (msg : string) (reply : Result QueryResult)
    (r : State) : Act State unit :=
  if SearchSource_eqb (searchSource r) FileSearch
     && negb (truthy (activeRagStoreName r))
  then ret tt else
  setChatHistoryWith (fun prev => prev ++ [userMessage msg]) ;;
  setIsQueryLoading true ;;
  tryFinally
    (tryCatch
       (result <- (if SearchSource_eqb (searchSource r) FileSearch
                   then await (CallFileSearch (activeRagStoreName r) msg) reply
                   else await (CallGoogleSearch msg) reply) ;;
        setChatHistoryWith (fun prev => prev ++ [modelMessage result]))
       (fun err =>
          setChatHistoryWith (fun prev => prev ++ [errorMessage]) ;;
          handleError "Failed to get response" err))
    (setIsQueryLoading false).

Definition handleSwitchSource (source : SearchSource)
    (fetched : Result (list string)) (r : State) : Act State unit :=
  if SearchSource_eqb source (searchSource r) then ret tt else
  handleEndChat r ;;
  setSearchSource source ;;
  when (SearchSource_eqb source GoogleSearch)
    (setIsQueryLoading true ;;
     tryFinally
       (tryCatch
          (qs <- await GenerateGoogleSearchQuestions fetched ;;
           setExampleQuestions qs)
          (fun err => emit (ConsoleError "Failed to get Google Search questions")))
       (setIsQueryLoading false)).

(** The [onClose] prop handed to [UploadModal]. *)
Definition onClose (r : State) : Act State unit :=
  setIsUploadModalOpen false.


(** What [renderContent] hands to [ChatInterface] and [UploadModal], the
    callbacks left aside. *)
Record ChatInterfaceProps : Type := {
  documentNameProp : string;
  historyProp : list ChatMessage;
  isQueryLoadingProp : bool;
  exampleQuestionsProp : list string;
  searchSourceProp : SearchSource;
  isChatActive : bool
}.

Record UploadModalProps : Type := {
  isOpenProp : bool;
  uploadProgressProp : option UploadProgress
}.

Inductive Rendered : Type :=
| InitializingView
| ChatView (chat : ChatInterfaceProps) (modal : UploadModalProps)
| ErrorView (shown : option string).

(** [renderContent]; its [default] branch is out of reach of the four
    values of [AppStatus]. *)
Definition renderContent (s : State) : Rendered :=
  match status s with
  | Initializing => InitializingView
  | Chatting | Uploading =>
      ChatView
        {| documentNameProp :=
             if SearchSource_eqb (searchSource s) FileSearch
             then documentName s else "Google Search";
           historyProp := chatHistory s;
           isQueryLoadingProp := isQueryLoading s;
           exampleQuestionsProp := exampleQuestions s;
           searchSourceProp := searchSource s;
           isChatActive :=
             truthy (activeRagStoreName s)
             || SearchSource_eqb (searchSource s) GoogleSearch |}
        {| isOpenProp := isUploadModalOpen s;
           uploadProgressProp := uploadProgress s |}
  | Error => ErrorView (error s)
  end.

End App.

(** ** src/unnamed/part_000: the [App] component with API-key selection *)

(** [window.aistudio] as the component sees it: each method may be absent
    ([None]); when present, the environment settles its promise. *)
Record AiStudio : Type := {
  hasSelectedApiKey : option (Result bool);
  openSelectKey : option (Result unit)
}.

Module AppKey.

Record State : Type := {
  status : AppStatus;
  searchSource : SearchSource;
  isApiKeySelected : bool;
  apiKeyError : option string;
  error : option string;
  isUploadModalOpen : bool;
  uploadProgress : option UploadProgress;
  activeRagStoreName : option string;
  chatHistory : list ChatMessage;
  isQueryLoading : bool;
  exampleQuestions : list string;
  documentName : string
}.

Definition initial : State :=
  {| status := Initializing; searchSource := FileSearch;
     isApiKeySelected := false; apiKeyError := None; error := None;
     isUploadModalOpen := false; uploadProgress := None;
     activeRagStoreName := None; chatHistory := []; isQueryLoading := false;
     exampleQuestions := []; documentName := "" |}.

Definition setStatus (v : AppStatus) : Act State unit :=
  update (fun s =>
    {| status := v; searchSource := searchSource s;
       isApiKeySelected := isApiKeySelected s; apiKeyError := apiKeyError s;
       error := error s;
       isUploadModalOpen := isUploadModalOpen s; uploadProgress := uploadProgress s;
       activeRagStoreName := activeRagStoreName s; chatHistory := chatHistory s;
       isQueryLoading := isQueryLoading s; exampleQuestions := exampleQuestions s;
       documentName := documentName s |}).

Definition setSearchSource (v : SearchSource) : Act State unit :=
  update (fun s =>
    {| status := status s; searchSource := v;
       isApiKeySelected := isApiKeySelected s; apiKeyError := apiKeyError s;
       error := error s;
       isUploadModalOpen := isUploadModalOpen s; uploadProgress := uploadProgress s;
       activeRagStoreName := activeRagStoreName s; chatHistory := chatHistory s;
       isQueryLoading := isQueryLoading s; exampleQuestions := exampleQuestions s;
       documentName := documentName s |}).

Definition setIsApiKeySelected (v : bool) : Act State unit :=
  update (fun s =>
    {| status := status s; searchSource := searchSource s;
       isApiKeySelected := v; apiKeyError := apiKeyError s;
       error := error s;
       isUploadModalOpen := isUploadModalOpen s; uploadProgress := uploadProgress s;
       activeRagStoreName := activeRagStoreName s; chatHistory := chatHistory s;
       isQueryLoading := isQueryLoading s; exampleQuestions := exampleQuestions s;
       documentName := documentName s |}).

Definition setApiKeyError (v : option string) : Act State unit :=
  update (fun s =>
    {| status := status s; searchSource := searchSource s;
       isApiKeySelected := isApiKeySelected s; apiKeyError := v;
       error := error s;
       isUploadModalOpen := isUploadModalOpen s; uploadProgress := uploadProgress s;
       activeRagStoreName := activeRagStoreName s; chatHistory := chatHistory s;
       isQueryLoading := isQueryLoading s; exampleQuestions := exampleQuestions s;
       documentName := documentName s |}).

Definition setError (v : option string) : Act State unit :=
  update (fun s =>
    {| status := status s; searchSource := searchSource s;
       isApiKeySelected := isApiKeySelected s; apiKeyError := apiKeyError s;
       error := v;
       isUploadModalOpen := isUploadModalOpen s; uploadProgress := uploadProgress s;
       activeRagStoreName := activeRagStoreName s; chatHistory := chatHistory s;
       isQueryLoading := isQueryLoading s; exampleQuestions := exampleQuestions s;
       documentName := documentName s |}).

Definition setIsUploadModalOpen (v : bool) : Act State unit :=
  update (fun s =>
    {| status := status s; searchSource := searchSource s;
       isApiKeySelected := isApiKeySelected s; apiKeyError := apiKeyError s;
       error := error s;
       isUploadModalOpen := v; uploadProgress := uploadProgress s;
       activeRagStoreName := activeRagStoreName s; chatHistory := chatHistory s;
       isQueryLoading := isQueryLoading s; exampleQuestions := exampleQuestions s;
       documentName := documentName s |}).

Definition setUploadProgressWith
    (f : option UploadProgress -> option UploadProgress) : Act State unit :=
  update (fun s =>
    {| status := status s; searchSource := searchSource s;
       isApiKeySelected := isApiKeySelected s; apiKeyError := apiKeyError s;
       error := error s;
       isUploadModalOpen := isUploadModalOpen s; uploadProgress := f (uploadProgress s);
       activeRagStoreName := activeRagStoreName s; chatHistory := chatHistory s;
       isQueryLoading := isQueryLoading s; exampleQuestions := exampleQuestions s;
       documentName := documentName s |}).

Definition setUploadProgress (v : option UploadProgress) : Act State unit :=
  setUploadProgressWith (fun _ => v).

Definition setActiveRagStoreName (v : option string) : Act State unit :=
  update (fun s =>
    {| status := status s; searchSource := searchSource s;
       isApiKeySelected := isApiKeySelected s; apiKeyError := apiKeyError s;
       error := error s;
       isUploadModalOpen := isUploadModalOpen s; uploadProgress := uploadProgress s;
       activeRagStoreName := v; chatHistory := chatHistory s;
       isQueryLoading := isQueryLoading s; exampleQuestions := exampleQuestions s;
       documentName := documentName s |}).

Definition setChatHistoryWith
    (f : list ChatMessage -> list ChatMessage) : Act State unit :=
  update (fun s =>
    {| status := status s; searchSource := searchSource s;
       isApiKeySelected := isApiKeySelected s; apiKeyError := apiKeyError s;
       error := error s;
       isUploadModalOpen := isUploadModalOpen s; uploadProgress := uploadProgress s;
       activeRagStoreName := activeRagStoreName s; chatHistory := f (chatHistory s);
       isQueryLoading := isQueryLoading s; exampleQuestions := exampleQuestions s;
       documentName := documentName s |}).

Definition setChatHistory (v : list ChatMessage) : Act State unit :=
  setChatHistoryWith (fun _ => v).

Definition setIsQueryLoading (v : bool) : Act State unit :=
  update (fun s =>
    {| status := status s; searchSource := searchSource s;
       isApiKeySelected := isApiKeySelected s; apiKeyError := apiKeyError s;
       error := error s;
       isUploadModalOpen := isUploadModalOpen s; uploadProgress := uploadProgress s;
       activeRagStoreName := activeRagStoreName s; chatHistory := chatHistory s;
       isQueryLoading := v; exampleQuestions := exampleQuestions s;
       documentName := documentName s |}).

Definition setExampleQuestions (v : list string) : Act State unit :=
  update (fun s =>
    {| status := status s; searchSource := searchSource s;
       isApiKeySelected := isApiKeySelected s; apiKeyError := apiKeyError s;
       error := error s;
       isUploadModalOpen := isUploadModalOpen s; uploadProgress := uploadProgress s;
       activeRagStoreName := activeRagStoreName s; chatHistory := chatHistory s;
       isQueryLoading := isQueryLoading s; exampleQuestions := v;
       documentName := documentName s |}).

Definition setDocumentName (v : string) : Act State unit :=
  update (fun s =>
    {| status := status s; searchSource := searchSource s;
       isApiKeySelected := isApiKeySelected s; apiKeyError := apiKeyError s;
       error := error s;
       isUploadModalOpen := isUploadModalOpen s; uploadProgress := uploadProgress s;
       activeRagStoreName := activeRagStoreName s; chatHistory := chatHistory s;
       isQueryLoading := isQueryLoading s; exampleQuestions := exampleQuestions s;
       documentName := v |}).

(** [checkApiKey]; it runs on mount, on focus and when the page becomes
    visible. *)
Definition checkApiKey (w : AiStudio) (r : State) : Act State unit :=
  match hasSelectedApiKey w with
  | None => ret tt
  | Some settled =>
      tryCatch
        (hasKey <- await HasSelectedApiKey settled ;;
         setIsApiKeySelected hasKey ;;
         when hasKey (setApiKeyError None ;; emit Initialize))
        (fun e =>
           emit (ConsoleError "Error checking for API key:") ;;
           setIsApiKeySelected false)
  end.

(** The mount effects, in the order they run: [checkApiKey()] runs up to
    its [await], so [hasSelectedApiKey] is called first; the later effect
    [setStatus(Chatting)] runs next; the rest of [checkApiKey] runs once
    [hasSelectedApiKey] has settled. *)
Definition onMount (w : AiStudio) (r : State) : Act State unit :=
  match hasSelectedApiKey w with
  | None => setStatus Chatting
  | Some settled =>
      emit HasSelectedApiKey ;;
      setStatus Chatting ;;
      tryCatch
        (hasKey <- (fun s t => (settled, s, t)) ;;
         setIsApiKeySelected hasKey ;;
         when hasKey (setApiKeyError None ;; emit Initialize))
        (fun e =>
           emit (ConsoleError "Error checking for API key:") ;;
           setIsApiKeySelected false)
  end.

Definition handleError (msg : string) (err : Thrown) : Act State unit :=
  emit (ConsoleError msg) ;;
  setError (Some (errorText msg err)) ;;
  setStatus Error.

Definition clearError (r : State) : Act State unit :=
  setError None ;;
  setStatus Chatting.

Definition handleSelectKey (w : AiStudio) (r : State) : Act State unit :=
  match openSelectKey w with
  | Some settled =>
      tryCatch
        (await OpenSelectKey settled ;;
         checkApiKey w r)
        (fun err => emit (ConsoleError "Failed to open API key selection dialog"))
  | None =>
      emit (ConsoleLog "window.aistudio.openSelectKey() not available.") ;;
      emit (Alert "API key selection is not available in this environment.")
  end.

Fixpoint uploadLoop (ragStoreName : string) (len i : nat) (rest : list File)
    (uploaded : nat -> Result unit) : Act State unit :=
  match rest with
  | [] => ret tt
  | f :: rest' =>
      setUploadProgressWith (loopProgress i len f) ;;
      await (UploadToRagStore ragStoreName f) (uploaded i) ;;
      uploadLoop ragStoreName len (i + 1) rest' uploaded
  end.

(** The test of the [catch] block:
    [errorMessage.includes('api key not valid') ||
     errorMessage.includes('requested entity was not found')]
    on the lower-cased text of the thrown value, here with the ASCII
    lower-casing [Js.toLowerCase]: it is the test of the code for thrown
    texts that are ASCII throughout.  [isApiKeyFailureWith] below leaves the
    lower-casing abstract. *)
Definition isApiKeyFailure (err : Thrown) : bool :=
  let errorMessage := toLowerCase (thrownText err) in
  includes errorMessage "api key not valid"
  || includes errorMessage "requested entity was not found".

Definition handleUploadAndStartChat (files : list File) (o : UploadOracle)
    (r : State) : Act State unit :=
  if negb (isApiKeySelected r)
  then setApiKeyError (Some "Please select your Gemini API Key first.")
  else
  if (List.length files =? 0)%nat then ret tt else
  setStatus Uploading ;;
  let totalSteps := List.length files + 2 in
  setUploadProgress (Some {| current := 0; total := totalSteps;
                             message := Some "Creating document index...";
                             fileName := None |}) ;;
  tryFinally
    (tryCatch
       (let storeName := ("chat-session-" ++ timeToString (now o))%string in
        ragStoreName <- await (CreateRagStore storeName) (created o) ;;
        setUploadProgress (Some {| current := 1; total := totalSteps;
                                   message := Some "Generating embeddings...";
                                   fileName := None |}) ;;
        uploadLoop ragStoreName (List.length files) 0 files (uploaded o) ;;
        setUploadProgress (Some {| current := List.length files + 1; total := totalSteps;
                                   message := Some "Generating suggestions...";
                                   fileName := Some "" |}) ;;
        qs <- await (GenerateExampleQuestions ragStoreName) (questions o) ;;
        setExampleQuestions qs ;;
        setUploadProgress (Some {| current := totalSteps; total := totalSteps;
                                   message := Some "All set!";
                                   fileName := Some "" |}) ;;
        emit (SetTimeout 500) ;;
        setDocumentName (docName files) ;;
        setActiveRagStoreName (Some ragStoreName) ;;
        setChatHistory [] ;;
        setStatus Chatting ;;
        setIsUploadModalOpen false)
       (fun err =>
          if isApiKeyFailure err
          then setApiKeyError (Some "The selected API key is invalid. Please select a different one and try again.") ;;
               setIsApiKeySelected false
          else handleError "Failed to start chat session" err))
    (setUploadProgress None ;;
     when (negb (AppStatus_eqb (status r) Error)) (setStatus Chatting)).

Section WithLowerCase.

(** [String.prototype.toLowerCase] as the runtime provides it; it is
    Unicode-aware and is left abstract. *)
Variable lowerCase : string -> string.

(** [err instanceof Error ? err.message.toLowerCase()
                          : String(err).toLowerCase()],
    then the two [includes] tests. *)
Definition isApiKeyFailureWith (err : Thrown) : bool :=
  let errorMessage := lowerCase (thrownText err) in
  includes errorMessage "api key not valid"
  || includes errorMessage "requested entity was not found".

(** [handleUploadAndStartChat] with that lower-casing in its [catch]
    block. *)
Definition handleUploadAndStartChatWith (files : list File) (o : UploadOracle)
    (r : State) : Act State unit :=
  if negb (isApiKeySelected r)
  then setApiKeyError (Some "Please select your Gemini API Key first.")
  else
  if (List.length files =? 0)%nat then ret tt else
  setStatus Uploading ;;
  let totalSteps := List.length files + 2 in
  setUploadProgress (Some {| current := 0; total := totalSteps;
                             message := Some "Creating document index...";
                             fileName := None |}) ;;
  tryFinally
    (tryCatch
       (let storeName := ("chat-session-" ++ timeToString (now o))%string in
        ragStoreName <- await (CreateRagStore storeName) (created o) ;;
        setUploadProgress (Some {| current := 1; total := totalSteps;
                                   message := Some "Generating embeddings...";
                                   fileName := None |}) ;;
        uploadLoop ragStoreName (List.length files) 0 files (uploaded o) ;;
        setUploadProgress (Some {| current := List.length files + 1; total := totalSteps;
                                   message := Some "Generating suggestions...";
                                   fileName := Some "" |}) ;;
        qs <- await (GenerateExampleQuestions ragStoreName) (questions o) ;;
        setExampleQuestions qs ;;
        setUploadProgress (Some {| current := totalSteps; total := totalSteps;
                                   message := Some "All set!";
                                   fileName := Some "" |}) ;;
        emit (SetTimeout 500) ;;
        setDocumentName (docName files) ;;
        setActiveRagStoreName (Some ragStoreName) ;;
        setChatHistory [] ;;
        setStatus Chatting ;;
        setIsUploadModalOpen false)
       (fun err =>
          if isApiKeyFailureWith err
          then setApiKeyError (Some "The selected API key is invalid. Please select a different one and try again.") ;;
               setIsApiKeySelected false
          else handleError "Failed to start chat session" err))
    (setUploadProgress None ;;
     when (negb (AppStatus_eqb (status r) Error)) (setStatus Chatting)).

End WithLowerCase.

Definition handleEndChat (r : State) : Act State unit :=
  when (truthy (activeRagStoreName r))
    (match activeRagStoreName r with
     | Some h => emit (DeleteRagStore h)
     | None => ret tt
     end) ;;
  setActiveRagStoreName None ;;
  setChatHistory [] ;;
  setExampleQuestions [] ;;
  setDocumentName "" ;;
  setSearchSource FileSearch ;;
  setStatus Chatting.

Definition onDeleteSettled (outcome : Result unit) (r : State) : Act State unit :=
  match outcome with
  | Ok _ => ret tt
  | Threw _ => emit (ConsoleError "Failed to delete RAG store in background")
  end.

Definition handleSendMessage (msg : string) (reply : Result QueryResult)
    (r : State) : Act State unit :=
  if SearchSource_eqb (searchSource r) FileSearch
     && negb (truthy (activeRagStoreName r))
  then ret tt else
  setChatHistoryWith (fun prev => prev ++ [userMessage msg]) ;;
  setIsQueryLoading true ;;
  tryFinally
    (tryCatch
       (result <- (if SearchSource_eqb (searchSource r) FileSearch
                   then await (CallFileSearch (activeRagStoreName r) msg) reply
                   else await (CallGoogleSearch msg) reply) ;;
        setChatHistoryWith (fun prev => prev ++ [modelMessage result]))
       (fun err =>
          setChatHistoryWith (fun prev => prev ++ [errorMessage]) ;;
          handleError "Failed to get response" err))
    (setIsQueryLoading false).

Definition handleSwitchSource (source : SearchSource)
    (fetched : Result (list string)) (r : State) : Act State unit :=
  if SearchSource_eqb source (searchSource r) then ret tt else
  handleEndChat r ;;
  setSearchSource source ;;
  when (SearchSource_eqb source GoogleSearch)
    (if negb (isApiKeySelected r)
     then setApiKeyError (Some "Please select your Gemini API Key to use Google Search.")
     else
       setIsQueryLoading true ;;
       tryFinally
         (tryCatch
            (qs <- await GenerateGoogleSearchQuestions fetched ;;
             setExampleQuestions qs)
            (fun err => emit (ConsoleError "Failed to get Google Search questions")))
         (setIsQueryLoading false)).

(** The [onFileSearchClick] prop: [() => setIsUploadModalOpen(true)]. *)
Definition onFileSearchClick (r : State) : Act State unit :=
  setIsUploadModalOpen true.

Definition onClose (r : State) : Act State unit :=
  setIsUploadModalOpen false.

End AppKey.

(** ** src/components/UploadModal.tsx *)

Module UploadModal.

(** The modal's own [useState] cells. *)
Record State : Type := {
  files : list File;
  isDragging : bool;
  loadingSample : option string
}.

Definition initial : State :=
  {| files := []; isDragging := false; loadingSample := None |}.

(** [prevFiles.filter((_, index) => index !== indexToRemove)] *)
Fixpoint removeAt (i : nat) (l : list File) : list File :=
  match l, i with
  | [], _ => []
  | _ :: rest, 0 => rest
  | f :: rest, S j => f :: removeAt j rest
  end.

(** What [fetch] resolves to, as [handleSelectSample] uses it. *)
Record Blob : Type := { blobType : string; blobSize : nat }.

Record Response : Type := {
  responseOk : bool;
  statusText : string;
  responseBlob : Result Blob             (* response.blob() *)
}.

(** [l.filter((_, index) => keep(index))], the indices counted from [i]. *)
Fixpoint filterByIndex (keep : nat -> bool) (i : nat) (l : list File) : list File :=
  match l with
  | [] => []
  | f :: rest =>
      if keep i then f :: filterByIndex keep (S i) rest
      else filterByIndex keep (S i) rest
  end.

Section WithParent.

(** The component that renders the modal, and the props it passes:
    [uploadProgress] is read off the parent's state, [onClose] and
    [onUpload] are closures of the parent's render. *)
Variable P : Type.
Variable uploadProgressProp : P -> option UploadProgress.
Variable onCloseProp : P -> Act P unit.
Variable onUploadProp : list File -> UploadOracle -> P -> Act P unit.

(** Parent and modal side by side. *)
Record View : Type := { parent : P; modal : State }.

(** Run a callback of the parent from inside a modal handler. *)
Definition liftParent {A} (m : Act P A) : Act View A :=
  fun v t =>
    match m (parent v) [] with
    | (res, p', tp) =>
        (res,
         {| parent := p'; modal := modal v |},
         t ++ map (fun ep => (fst ep, {| parent := snd ep; modal := modal v |})) tp)
    end.

Definition setFilesWith (f : list File -> list File) : Act View unit :=
  update (fun v =>
    {| parent := parent v;
       modal := {| files := f (files (modal v));
                   isDragging := isDragging (modal v);
                   loadingSample := loadingSample (modal v) |} |}).

Definition setFiles (fs : list File) : Act View unit :=
  setFilesWith (fun _ => fs).

Definition setIsDragging (b : bool) : Act View unit :=
  update (fun v =>
    {| parent := parent v;
       modal := {| files := files (modal v);
                   isDragging := b;
                   loadingSample := loadingSample (modal v) |} |}).

(** [event.target.files] is [null] when nothing was picked. *)
Definition handleFileChange (picked : option (list File)) (r : View)
    : Act View unit :=
  match picked with
  | Some fs => setFilesWith (fun prev => prev ++ fs)
  | None => ret tt
  end.

Definition handleDrop (dropped : option (list File)) (r : View)
    : Act View unit :=
  setIsDragging false ;;
  match dropped with
  | Some fs => setFilesWith (fun prev => prev ++ fs)
  | None => ret tt
  end.

Definition handleConfirmUpload (o : UploadOracle) (r : View) : Act View unit :=
  if (List.length (files (modal r)) =? 0)%nat then ret tt else
  tryCatch
    (liftParent (onUploadProp (files (modal r)) o (parent r)) ;;
     setFiles [])
    (fun err => emit (ConsoleError "Upload process failed:")).

Definition handleRemoveFile (indexToRemove : nat) (r : View) : Act View unit :=
  setFilesWith (removeAt indexToRemove).

Definition handleClose (r : View) : Act View unit :=
  match uploadProgressProp (parent r) with
  | Some _ => ret tt                     (* Don't close during upload *)
  | None =>
      setFiles [] ;;
      liftParent (onCloseProp (parent r))
  end.

Definition setLoadingSample (v0 : option string) : Act View unit :=
  update (fun v =>
    {| parent := parent v;
       modal := {| files := files (modal v);
                   isDragging := isDragging (modal v);
                   loadingSample := v0 |} |}).

Definition handleDragOver (r : View) : Act View unit :=
  when (negb (isDragging (modal r))) (setIsDragging true).

Definition handleDragLeave (r : View) : Act View unit :=
  setIsDragging false.

(** [await] of a browser call ([fetch], [response.blob()]); the effect trace
    records the calls into the Gemini service, the console and alerts, not
    these. *)
Definition settled {A} (r : Result A) : Act View A :=
  fun v t => (r, v, t).

Definition handleSelectSample (sampleName url fileName : string)
    (fetched : Result Response) (r : View) : Act View unit :=
  if truthy (loadingSample (modal r)) then ret tt else
  setLoadingSample (Some sampleName) ;;
  tryFinally
    (tryCatch
       (response <- settled fetched ;;
        (if negb (responseOk response)
         then throw (ErrorObj ("Failed to fetch " ++ sampleName ++ ": "
                               ++ statusText response
                               ++ ". This may be a CORS issue.")%string)
         else ret tt) ;;
        blob <- settled (responseBlob response) ;;
        let file := {| name := fileName; size := blobSize blob |} in
        setFilesWith (fun prev => prev ++ [file]))
       (fun error =>
          emit (ConsoleError "Error fetching sample file:") ;;
          when (match error with
                | ErrorObj m => includes m "Failed to fetch"
                | Other _ _ => false
                end)
            (emit (Alert "Could not fetch the sample document. Please try uploading a local file instead."))))
    (setLoadingSample None).

End WithParent.

Arguments parent {P} v.
Arguments modal {P} v.
Arguments Build_View {P} parent modal.

End UploadModal.

(** ** The rendered page: [App] together with its [UploadModal]

    An event is the firing of one handler that [renderContent] has wired to
    a rendered element, with the answers of the environment to the calls the
    handler awaits.  Handlers run to completion one after the other. *)

Definition isOk {A} (r : Result A) : bool :=
  match r with Ok _ => true | Threw _ => false end.

(** Every awaited step of the start sequence succeeds for [n] files. *)
Definition allStepsSucceed (n : nat) (o : UploadOracle) : bool :=
  isOk (created o)
  && forallb (fun i => isOk (uploaded o i)) (seq 0 n)
  && isOk (questions o).

Module AppPage.

Import UploadModal.

Definition View : Type := UploadModal.View App.State.

Definition initial : View :=
  {| parent := App.initial; modal := UploadModal.initial |}.

(** The modal as [App] instantiates it:
    [<UploadModal isOpen=... onClose={() => setIsUploadModalOpen(false)}
      onUpload={handleUploadAndStartChat} uploadProgress={uploadProgress} />] *)
Definition modalHandleClose : View -> Act View unit :=
  handleClose App.State App.uploadProgress App.onClose.

Definition modalHandleConfirmUpload (o : UploadOracle) : View -> Act View unit :=
  handleConfirmUpload App.State App.handleUploadAndStartChat o.

(** A handler of [App] itself, fired from the page. *)
Definition ofApp (h : App.State -> Act App.State unit) (r : View) : Act View unit :=
  liftParent App.State (h (parent r)).

Inductive Event : Type :=
| Mount
| ClearError
| NewChat
| FileSearchClick
| SendMessage (msg : string) (reply : Result QueryResult)
| SwitchSource (source : SearchSource) (fetched : Result (list string))
| PickFiles (picked : option (list File))
| RemoveFile (index : nat)
| ConfirmUpload (o : UploadOracle)
| CloseModal
| DeleteSettled (outcome : Result unit).

(** [renderContent]: the chat interface and the modal are mounted in the
    [Chatting] and [Uploading] cases only. *)
Definition rendersChat (v : View) : bool :=
  match App.status (parent v) with
  | Chatting | Uploading => true
  | Initializing | Error => false
  end.

(** [if (!isOpen) return null] *)
Definition rendersModal (v : View) : bool :=
  rendersChat v && App.isUploadModalOpen (parent v).

(** The file form replaces the progress bar when [uploadProgress] is null. *)
Definition rendersForm (v : View) : bool :=
  rendersModal v
  && match App.uploadProgress (parent v) with Some _ => false | None => true end.

Definition enabled (e : Event) (v : View) : bool :=
  match e with
  | Mount => AppStatus_eqb (App.status (parent v)) Initializing
  | ClearError => AppStatus_eqb (App.status (parent v)) Error
  | NewChat | FileSearchClick | SendMessage _ _ | SwitchSource _ _ => rendersChat v
  | PickFiles _ | RemoveFile _ => rendersForm v
  | ConfirmUpload _ =>
      rendersForm v && negb (List.length (files (modal v)) =? 0)%nat
  | CloseModal => rendersModal v
  | DeleteSettled _ => true
  end.

Definition handler (e : Event) : View -> Act View unit :=
  match e with
  | Mount => ofApp App.onMount
  | ClearError => ofApp App.clearError
  | NewChat => ofApp App.handleEndChat
  | FileSearchClick => ofApp App.handleFileSearchClick
  | SendMessage msg reply => ofApp (App.handleSendMessage msg reply)
  | SwitchSource source fetched => ofApp (App.handleSwitchSource source fetched)
  | PickFiles picked => handleFileChange App.State picked
  | RemoveFile i => handleRemoveFile App.State i
  | ConfirmUpload o => modalHandleConfirmUpload o
  | CloseModal => modalHandleClose
  | DeleteSettled outcome => ofApp (App.onDeleteSettled outcome)
  end.

(** Leaving the chat view unmounts the modal, which loses its state. *)
Definition remount (v : View) : View :=
  if rendersChat v then v
  else {| parent := parent v; modal := UploadModal.initial |}.

Definition step (e : Event) (v : View) : option View :=
  if enabled e v then Some (remount (stateOf (fire (handler e) v))) else None.

Fixpoint run (es : list Event) (v : View) : option View :=
  match es with
  | [] => Some v
  | e :: rest =>
      match step e v with
      | Some v' => run rest v'
      | None => None
      end
  end.

Definition reachable (v : View) : Prop := exists es, run es initial = Some v.

(** Ghost bookkeeping for the index life cycle, in the words of the spec:
    an index is live once a start sequence has completed successfully, until
    the session is ended or the mode is switched. *)
Definition liveAfter (e : Event) (v : View) (live : bool) : bool :=
  match e with
  | ConfirmUpload o =>
      if negb (List.length (files (modal v)) =? 0)%nat
         && allStepsSucceed (List.length (files (modal v))) o
      then true else live
  | NewChat => false
  | SwitchSource source _ =>
      if SearchSource_eqb source (App.searchSource (parent v)) then live else false
  | FileSearchClick =>
      if truthy (App.activeRagStoreName (parent v))
         || SearchSource_eqb (App.searchSource (parent v)) GoogleSearch
      then false else live
  | _ => live
  end.

Fixpoint runGhost (es : list Event) (v : View) (live : bool) : option (View * bool) :=
  match es with
  | [] => Some (v, live)
  | e :: rest =>
      match step e v with
      | Some v' => runGhost rest v' (liveAfter e v live)
      | None => None
      end
  end.

(** The invariant of the data model, on a state with its ghost flag. *)
Definition handleInvariant (v : View) (live : bool) : Prop :=
  App.activeRagStoreName (parent v) <> None
  <-> (App.searchSource (parent v) = FileSearch /\ live = true).

(** The modal's backdrop ([fixed inset-0]) covers the chat interface: a
    pointer reaches the chat controls only while the modal is not rendered.
    [runOverlay] is [runGhost] restricted to such deliveries. *)
Definition behindModal (e : Event) : bool :=
  match e with
  | NewChat | FileSearchClick | SendMessage _ _ | SwitchSource _ _ => true
  | _ => false
  end.

Definition deliverable (e : Event) (v : View) : bool :=
  negb (rendersModal v && behindModal e).

Fixpoint runOverlay (es : list Event) (v : View) (live : bool)
    : option (View * bool) :=
  match es with
  | [] => Some (v, live)
  | e :: rest =>
      if deliverable e v then
        match step e v with
        | Some v' => runOverlay rest v' (liveAfter e v live)
        | None => None
        end
      else None
  end.

End AppPage.

Module AppKeyPage.

(** This variant passes its modal more props ([apiKeyError],
    [isApiKeySelected], [onSelectKey]) than src/components/UploadModal.tsx
    declares, so the modal it renders is another version of that file.  The
    page is therefore modelled on the state of [App] alone, an event of the
    modal being the call of the prop it was given. *)

Inductive Event : Type :=
| Mount (w : AiStudio)
| CheckApiKey (w : AiStudio)
| SelectKey (w : AiStudio)
| ClearError
| NewChat
| FileSearchClick
| SendMessage (msg : string) (reply : Result QueryResult)
| SwitchSource (source : SearchSource) (fetched : Result (list string))
| Upload (files : list File) (o : UploadOracle)
| CloseModal
| DeleteSettled (outcome : Result unit).

Definition rendersChat (s : AppKey.State) : bool :=
  match AppKey.status s with
  | Chatting | Uploading => true
  | Initializing | Error => false
  end.

Definition rendersModal (s : AppKey.State) : bool :=
  rendersChat s && AppKey.isUploadModalOpen s.

Definition enabled (e : Event) (s : AppKey.State) : bool :=
  match e with
  | Mount _ => AppStatus_eqb (AppKey.status s) Initializing
  | CheckApiKey _ => true                  (* window focus, visibility change *)
  | ClearError => AppStatus_eqb (AppKey.status s) Error
  | NewChat | FileSearchClick | SendMessage _ _ | SwitchSource _ _ => rendersChat s
  | SelectKey _ | Upload _ _ | CloseModal => rendersModal s
  | DeleteSettled _ => true
  end.

Definition handler (e : Event) : AppKey.State -> Act AppKey.State unit :=
  match e with
  | Mount w => AppKey.onMount w
  | CheckApiKey w => AppKey.checkApiKey w
  | SelectKey w => AppKey.handleSelectKey w
  | ClearError => AppKey.clearError
  | NewChat => AppKey.handleEndChat
  | FileSearchClick => AppKey.onFileSearchClick
  | SendMessage msg reply => AppKey.handleSendMessage msg reply
  | SwitchSource source fetched => AppKey.handleSwitchSource source fetched
  | Upload files o => AppKey.handleUploadAndStartChat files o
  | CloseModal => AppKey.onClose
  | DeleteSettled outcome => AppKey.onDeleteSettled outcome
  end.

Definition step (e : Event) (s : AppKey.State) : option AppKey.State :=
  if enabled e s then Some (stateOf (fire (handler e) s)) else None.

Fixpoint run (es : list Event) (s : AppKey.State) : option AppKey.State :=
  match es with
  | [] => Some s
  | e :: rest =>
      match step e s with
      | Some s' => run rest s'
      | None => None
      end
  end.

Definition reachable (s : AppKey.State) : Prop :=
  exists es, run es AppKey.initial = Some s.

(** Ghost bookkeeping as in [AppPage]; here a start sequence also needs a
    selected API key, and the file-search click ends nothing. *)
Definition liveAfter (e : Event) (s : AppKey.State) (live : bool) : bool :=
  match e with
  | Upload files o =>
      if AppKey.isApiKeySelected s
         && negb (List.length files =? 0)%nat
         && allStepsSucceed (List.length files) o
      then true else live
  | NewChat => false
  | SwitchSource source _ =>
      if SearchSource_eqb source (AppKey.searchSource s) then live else false
  | _ => live
  end.

Fixpoint runGhost (es : list Event) (s : AppKey.State) (live : bool)
    : option (AppKey.State * bool) :=
  match es with
  | [] => Some (s, live)
  | e :: rest =>
      match step e s with
      | Some s' => runGhost rest s' (liveAfter e s live)
      | None => None
      end
  end.

Definition handleInvariant (s : AppKey.State) (live : bool) : Prop :=
  AppKey.activeRagStoreName s <> None
  <-> (AppKey.searchSource s = FileSearch /\ live = true).

Definition behindModal (e : Event) : bool :=
  match e with
  | NewChat | FileSearchClick | SendMessage _ _ | SwitchSource _ _ => true
  | _ => false
  end.

Definition deliverable (e : Event) (s : AppKey.State) : bool :=
  negb (rendersModal s && behindModal e).

Fixpoint runOverlay (es : list Event) (s : AppKey.State) (live : bool)
    : option (AppKey.State * bool) :=
  match es with
  | [] => Some (s, live)
  | e :: rest =>
      if deliverable e s then
        match step e s with
        | Some s' => runOverlay rest s' (liveAfter e s live)
        | None => None
        end
      else None
  end.

End AppKeyPage.

(** * Specification-side definitions and sample sessions

    Views of the traces and states that the statements below speak about,
    and concrete sessions on which they are exercised. *)

(** The files for which the upload loop issues [uploadToRagStore], when it
    starts at index [i] with [rest] still to go: it stops after the first
    upload that fails. *)
Fixpoint uploadsAttempted (uploaded : nat -> Result unit) (i : nat)
    (rest : list File) : list File :=
  match rest with
  | [] => []
  | f :: rest' =>
      f :: (if isOk (uploaded i) then uploadsAttempted uploaded (i + 1) rest' else [])
  end.

Definition allUploadsOk (uploaded : nat -> Result unit) (i n : nat) : bool :=
  forallb (fun k => isOk (uploaded k)) (seq i n).

(** The remote calls of a start sequence, in the words of the spec: create
    the index, upload the files in order, ask for suggested questions; the
    first failing step is the last one issued. *)
Definition startSequenceCalls (files : list File) (o : UploadOracle) : list Effect :=
  CreateRagStore ("chat-session-" ++ timeToString (now o))
  :: match created o with
     | Threw _ => []
     | Ok h =>
         map (UploadToRagStore h) (uploadsAttempted (uploaded o) 0 files)
         ++ (if allUploadsOk (uploaded o) 0 (List.length files)
             then [GenerateExampleQuestions h] else [])
     end.

(** A remote query is issued: web mode, or a usable index handle. *)
Definition queryIssued (source : SearchSource) (handle : option string) : Prop :=
  source = GoogleSearch \/ truthy handle = true.

Definition App_withProgress (p : option UploadProgress) (s : App.State) : App.State :=
  {| App.status := App.status s; App.searchSource := App.searchSource s;
     App.error := App.error s; App.isUploadModalOpen := App.isUploadModalOpen s;
     App.uploadProgress := p;
     App.activeRagStoreName := App.activeRagStoreName s;
     App.chatHistory := App.chatHistory s; App.isQueryLoading := App.isQueryLoading s;
     App.exampleQuestions := App.exampleQuestions s; App.documentName := App.documentName s |}.

Definition AppKey_withProgress (p : option UploadProgress) (s : AppKey.State)
    : AppKey.State :=
  {| AppKey.status := AppKey.status s; AppKey.searchSource := AppKey.searchSource s;
     AppKey.isApiKeySelected := AppKey.isApiKeySelected s;
     AppKey.apiKeyError := AppKey.apiKeyError s;
     AppKey.error := AppKey.error s;
     AppKey.isUploadModalOpen := AppKey.isUploadModalOpen s;
     AppKey.uploadProgress := p;
     AppKey.activeRagStoreName := AppKey.activeRagStoreName s;
     AppKey.chatHistory := AppKey.chatHistory s;
     AppKey.isQueryLoading := AppKey.isQueryLoading s;
     AppKey.exampleQuestions := AppKey.exampleQuestions s;
     AppKey.documentName := AppKey.documentName s |}.

(** The application right after mounting: no session yet. *)
Definition idleApp : App.State := stateOf (fire App.onMount App.initial).

Definition idleAppKey : AppKey.State :=
  stateOf (fire (AppKey.onMount {| hasSelectedApiKey := Some (Ok true);
                                   openSelectKey := Some (Ok tt) |})
                AppKey.initial).

(** The remote call a query issues. *)
Definition queryCall (source : SearchSource) (handle : option string)
    (msg : string) : Effect :=
  match source with
  | FileSearch => CallFileSearch handle msg
  | GoogleSearch => CallGoogleSearch msg
  end.

(** A web-grounded session right after the switch. *)
Definition webChat : App.State :=
  stateOf (fire (App.handleSwitchSource GoogleSearch (Ok ["What is new today?"])) idleApp).

Definition webChatKey : AppKey.State :=
  stateOf (fire (AppKey.handleSwitchSource GoogleSearch (Ok ["What is new today?"]))
                idleAppKey).

Definition manualA : File := {| name := "a.pdf"; size := 1024 |}.
Definition manualB : File := {| name := "b.pdf"; size := 2048 |}.
Definition manualC : File := {| name := "c.md"; size := 512 |}.

Definition goodOracle : UploadOracle :=
  {| now := 1730419200000%N;
     created := Ok "fileSearchStores/s1";
     uploaded := fun _ => Ok tt;
     questions := Ok ["What is it about?"] |}.

(** The second upload is refused. *)
Definition secondUploadFails : UploadOracle :=
  {| now := 1730419200000%N;
     created := Ok "fileSearchStores/s1";
     uploaded := fun i => if (i =? 1)%nat then Threw (ErrorObj "quota exceeded") else Ok tt;
     questions := Ok ["What is it about?"] |}.

(** A document session with a live index. *)
Definition docChat : App.State :=
  stateOf (fire (App.handleUploadAndStartChat [manualA; manualB] goodOracle) idleApp).

Definition docChatKey : AppKey.State :=
  stateOf (fire (AppKey.handleUploadAndStartChat [manualA; manualB] goodOracle) idleAppKey).

(** The modal open with two files picked, before and during an upload. *)
Definition pickedTwo : UploadModal.State :=
  {| UploadModal.files := [manualA; manualB];
     UploadModal.isDragging := false;
     UploadModal.loadingSample := None |}.

Definition modalOpen : AppPage.View :=
  {| UploadModal.parent := stateOf (fire App.handleFileSearchClick idleApp);
     UploadModal.modal := pickedTwo |}.

Definition modalUploading : AppPage.View :=
  {| UploadModal.parent :=
       App_withProgress
         (Some {| current := 1; total := 4;
                  message := Some "Generating embeddings...";
                  fileName := Some "(1/2) a.pdf" |})
         (stateOf (fire App.handleFileSearchClick idleApp));
     UploadModal.modal := pickedTwo |}.

(** [window.aistudio] with an API key already selected. *)
Definition studioWithKey : AiStudio :=
  {| hasSelectedApiKey := Some (Ok true); openSelectKey := Some (Ok tt) |}.

(** Switch to web search, click the file-search button, upload one file:
    on src/unnamed/part_000 ... *)
Definition uploadFromWebKeyed : list AppKeyPage.Event :=
  [ AppKeyPage.Mount studioWithKey;
    AppKeyPage.SwitchSource GoogleSearch (Ok ["What is new today?"]);
    AppKeyPage.FileSearchClick;
    AppKeyPage.Upload [manualA] goodOracle ].

(** ... and on src/App.tsx. *)
Definition uploadFromWeb : list AppPage.Event :=
  [ AppPage.Mount;
    AppPage.SwitchSource GoogleSearch (Ok ["What is new today?"]);
    AppPage.FileSearchClick;
    AppPage.PickFiles (Some [manualA]);
    AppPage.ConfirmUpload goodOracle ].

(** What the induction carries along a run. *)
Definition overlayInvariant (s : App.State) (live : bool) : Prop :=
  (App.isUploadModalOpen s = true -> App.searchSource s = FileSearch)
  /\ (App.activeRagStoreName s <> None <-> live = true)
  /\ (live = true -> App.searchSource s = FileSearch).

(** Open the modal first, then switch to web search behind it, then upload. *)
Definition switchBehindModal : list AppPage.Event :=
  [ AppPage.Mount;
    AppPage.FileSearchClick;
    AppPage.PickFiles (Some [manualA]);
    AppPage.SwitchSource GoogleSearch (Ok ["What is new today?"]);
    AppPage.ConfirmUpload goodOracle ].

(** ** Further views used in the statements *)

(** The progress shown while file number [j] (from 0) of [n] is uploaded. *)
Definition progressAtUpload (j n : nat) (f : File) : UploadProgress :=
  {| current := j + 1;
     total := n + 2;
     message := Some "Generating embeddings...";
     fileName := Some (progressFileName j n f) |}.

(** What holds of [App] between two handlers, on every run. *)
Definition restInvariant (s : App.State) : Prop :=
  App.uploadProgress s = None
  /\ App.isQueryLoading s = false
  /\ App.status s <> Uploading
  /\ (App.status s = Error -> App.error s <> None)
  /\ (App.searchSource s = FileSearch -> App.activeRagStoreName s = None ->
      App.chatHistory s = [] /\ App.exampleQuestions s = []
      /\ App.documentName s = "").

Definition restInvariantKey (s : AppKey.State) : Prop :=
  AppKey.uploadProgress s = None
  /\ AppKey.isQueryLoading s = false
  /\ AppKey.status s <> Uploading
  /\ (AppKey.status s = Error -> AppKey.error s <> None)
  /\ (AppKey.searchSource s = FileSearch -> AppKey.activeRagStoreName s = None ->
      AppKey.chatHistory s = [] /\ AppKey.exampleQuestions s = []
      /\ AppKey.documentName s = "").

(** The first upload is refused because the API key is rejected. *)
Definition keyRejected : UploadOracle :=
  {| now := 1730419200000%N;
     created := Threw (ErrorObj "API key not valid. Please pass a valid API key.");
     uploaded := fun _ => Ok tt;
     questions := Ok [] |}.

Definition sampleReply : QueryResult :=
  {| resultText := "32 psi";
     resultChunks := Some [RetrievedContext "Tyre pressure: 32 psi"] |}.

(** Two runs of src/App.tsx: a document session started from web mode, and
    a web session with one answered query, ended by "new chat". *)
Definition afterUploadFromWeb : AppPage.View :=
  match AppPage.run uploadFromWeb AppPage.initial with
  | Some v => v
  | None => AppPage.initial
  end.

Definition webThenNewChat : list AppPage.Event :=
  [ AppPage.Mount;
    AppPage.SwitchSource GoogleSearch (Ok ["What is new today?"]);
    AppPage.SendMessage "hello" (Ok sampleReply);
    AppPage.NewChat ].

Definition afterNewChat : AppPage.View :=
  match AppPage.run webThenNewChat AppPage.initial with
  | Some v => v
  | None => AppPage.initial
  end.

(** A run of src/unnamed/part_000 that ends idle. *)
Definition webThenNewChatKeyed : list AppKeyPage.Event :=
  [ AppKeyPage.Mount studioWithKey;
    AppKeyPage.SwitchSource GoogleSearch (Ok ["What is new today?"]);
    AppKeyPage.SendMessage "hello" (Ok sampleReply);
    AppKeyPage.NewChat ].

Definition afterNewChatKeyed : AppKey.State :=
  match AppKeyPage.run webThenNewChatKeyed AppKey.initial with
  | Some s => s
  | None => AppKey.initial
  end.

(** * Proof automation: run a handler on a state whose cells are variables *)

Ltac act_norm :=
  cbv beta iota zeta delta
    [fire stateOf traceOf resultOf fst snd
     tryFinally tryCatch bind await ret emit update when throw
     App.setStatus App.setSearchSource App.setError App.setIsUploadModalOpen
     App.setUploadProgress App.setUploadProgressWith App.setActiveRagStoreName
     App.setChatHistory App.setChatHistoryWith App.setIsQueryLoading
     App.setExampleQuestions App.setDocumentName App.handleError
     App.status App.searchSource App.error App.isUploadModalOpen App.uploadProgress
     App.activeRagStoreName App.chatHistory App.isQueryLoading App.exampleQuestions
     App.documentName App_withProgress
     AppKey.setStatus AppKey.setSearchSource AppKey.setError
     AppKey.setIsApiKeySelected AppKey.setApiKeyError
     AppKey.setIsUploadModalOpen
     AppKey.setUploadProgress AppKey.setUploadProgressWith
     AppKey.setActiveRagStoreName
     AppKey.setChatHistory AppKey.setChatHistoryWith AppKey.setIsQueryLoading
     AppKey.setExampleQuestions AppKey.setDocumentName AppKey.handleError
     AppKey.status AppKey.searchSource AppKey.isApiKeySelected AppKey.apiKeyError
     AppKey.error AppKey.isUploadModalOpen AppKey.uploadProgress
     AppKey.activeRagStoreName AppKey.chatHistory AppKey.isQueryLoading
     AppKey.exampleQuestions AppKey.documentName AppKey_withProgress
     negb andb orb AppStatus_eqb SearchSource_eqb truthy].

Ltac open_app s :=
  destruct s as [?st ?src ?er ?mo ?up ?ah ?ch ?ql ?eq ?dn].

Ltac open_appkey s :=
  destruct s as [?st ?src ?ks ?ke ?er ?mo ?up ?ah ?ch ?ql ?eq ?dn].

(** Closing a membership fact over a trace that has been computed. *)
Ltac in_trace H :=
  cbn in H;
  repeat match type of H with
         | _ \/ _ => destruct H as [H|H]
         | False => contradiction
         | (_, _) = (_, _) => inversion H; subst; clear H
         end.

Ltac switch_facts :=
  repeat match goal with |- _ /\ _ => split end;
  first
    [ reflexivity
    | let h := fresh "h" in
      let Hh := fresh "Hh" in
      let Ht := fresh "Ht" in
      intros h Hh Ht; inversion Hh; subst; cbn in Ht; try discriminate; reflexivity
    | let x := fresh "x" in
      let Hin := fresh "Hin" in
      intros x Hin; in_trace Hin; repeat split; reflexivity ].

Ltac crush_invariant s live :=
  let st := fresh "st" in
  let src := fresh "src" in
  let mo := fresh "mo" in
  let ah := fresh "ah" in
  destruct s as [st src ?er mo ?up ah ?ch ?ql ?eq ?dn];
  unfold overlayInvariant in *;
  destruct st, src, mo, ah as [[|?c ?h]|], live; cbn in *;
  try discriminate;
  intuition (try congruence; try discriminate).

Ltac split_trace Hin :=
  repeat match type of Hin with
         | In _ (_ ++ _) => apply in_app_or in Hin; destruct Hin as [Hin|Hin]
         | In _ (_ :: _) => destruct Hin as [Hin|Hin]
         | In _ [] => destruct Hin
         end.

Ltac crush_rest s :=
  let st := fresh "st" in
  let src := fresh "src" in
  let er := fresh "er" in
  let up := fresh "up" in
  let ah := fresh "ah" in
  let ql := fresh "ql" in
  destruct s as [st src er ?mo up ah ?ch ql ?eq ?dn];
  unfold restInvariant in *;
  destruct st, src, er, up, ah as [[|?c ?h]|], ql; cbn in *;
  try discriminate;
  intuition (try congruence; try discriminate).

Ltac crush_rest_key s :=
  let st := fresh "st" in
  let src := fresh "src" in
  let ks := fresh "ks" in
  let ah := fresh "ah" in
  let H1 := fresh "H" in
  let H2 := fresh "H" in
  let H3 := fresh "H" in
  let H4 := fresh "H" in
  let H5 := fresh "H" in
  destruct s as [st src ks ?ke ?er ?mo ?up ah ?ch ?ql ?eq ?dn];
  unfold restInvariantKey in *;
  match goal with HI : _ /\ _ |- _ => destruct HI as (H1 & H2 & H3 & H4 & H5) end;
  cbn in H1, H2, H3, H4, H5; subst;
  destruct st, src, ks, ah as [[|?c ?h]|]; cbn in *;
  try discriminate;
  intuition (try congruence; try discriminate).

(** * Properties of the embedding *)

(** ** Decimal rendering of a count *)

Lemma numToString_roundtrip (n : nat) :
  option_map Nat.of_uint (NilEmpty.uint_of_string (numToString n)) = Some n.
Proof.
  unfold numToString. rewrite NilEmpty.usu. cbn. now rewrite DecimalNat.Unsigned.of_to.
Qed.

Example numToString_samples :
  numToString 0 = "0" /\ numToString 3 = "3" /\ numToString 12 = "12"
  /\ numToString 100 = "100".
Proof. repeat split; reflexivity. Qed.

(** ** The upload loop *)

Lemma uploadsAttempted_all_ok uploaded rest :
  forall i, allUploadsOk uploaded i (List.length rest) = true ->
            uploadsAttempted uploaded i rest = rest.
Proof.
  induction rest as [|f rest IH]; intros i H; [reflexivity|].
  cbn in H. apply andb_prop in H as [H1 H2].
  cbn. rewrite H1. f_equal. apply IH. now replace (i + 1) with (S i) by lia.
Qed.

(** No upload is issued past the first one that fails. *)
Lemma uploadsAttempted_stops uploaded rest :
  forall i k, isOk (uploaded (i + k)) = false ->
              List.length (uploadsAttempted uploaded i rest) <= k + 1.
Proof.
  induction rest as [|f rest IH]; intros i k H; cbn; [lia|].
  destruct k as [|k].
  - replace (i + 0) with i in H by lia. rewrite H. cbn. lia.
  - destruct (isOk (uploaded i)); cbn; [|lia].
    specialize (IH (i + 1) k). replace (i + 1 + k) with (i + S k) in IH by lia.
    specialize (IH H). lia.
Qed.

Lemma App_uploadLoop_spec h len uploaded rest :
  forall i s t,
  exists r p t',
    App.uploadLoop h len i rest uploaded s t = (r, App_withProgress p s, t')
    /\ effects t' = effects t ++ map (UploadToRagStore h) (uploadsAttempted uploaded i rest)
    /\ isOk r = allUploadsOk uploaded i (List.length rest).
Proof.
  induction rest as [|f rest IH]; intros i s t.
  - exists (Ok tt), (App.uploadProgress s), t. cbn. rewrite app_nil_r.
    destruct s; repeat split; congruence.
  - cbn [App.uploadLoop]. unfold bind at 1. cbn [App.setUploadProgressWith update].
    unfold bind at 1. unfold await at 1.
    cbn [uploadsAttempted allUploadsOk List.length seq forallb].
    destruct (uploaded i) as [[]|e] eqn:Hu; cbn [isOk andb].
    + match goal with |- context [App.uploadLoop h len (i+1) rest uploaded ?s1 ?t1] =>
        destruct (IH (i + 1) s1 t1) as (r & p & t' & Heq & Heff & Hok) end.
      exists r, p, t'.
      replace (S i) with (i + 1) by lia.
      rewrite Heq. unfold effects in *. rewrite Heff, map_app, <- app_assoc. cbn.
      repeat split; assumption.
    + eexists (Threw e), _, _. split; [reflexivity|].
      unfold effects. rewrite map_app. cbn. split; reflexivity.
Qed.

Lemma AppKey_uploadLoop_spec h len uploaded rest :
  forall i s t,
  exists r p t',
    AppKey.uploadLoop h len i rest uploaded s t = (r, AppKey_withProgress p s, t')
    /\ effects t' = effects t ++ map (UploadToRagStore h) (uploadsAttempted uploaded i rest)
    /\ isOk r = allUploadsOk uploaded i (List.length rest).
Proof.
  induction rest as [|f rest IH]; intros i s t.
  - exists (Ok tt), (AppKey.uploadProgress s), t. cbn. rewrite app_nil_r.
    destruct s; repeat split; congruence.
  - cbn [AppKey.uploadLoop]. unfold bind at 1. cbn [AppKey.setUploadProgressWith update].
    unfold bind at 1. unfold await at 1.
    cbn [uploadsAttempted allUploadsOk List.length seq forallb].
    destruct (uploaded i) as [[]|e] eqn:Hu; cbn [isOk andb].
    + match goal with |- context [AppKey.uploadLoop h len (i+1) rest uploaded ?s1 ?t1] =>
        destruct (IH (i + 1) s1 t1) as (r & p & t' & Heq & Heff & Hok) end.
      exists r, p, t'.
      replace (S i) with (i + 1) by lia.
      rewrite Heq. unfold effects in *. rewrite Heff, map_app, <- app_assoc. cbn.
      repeat split; assumption.
    + eexists (Threw e), _, _. split; [reflexivity|].
      unfold effects. rewrite map_app. cbn. split; reflexivity.
Qed.

(** ** The start sequence, [handleUploadAndStartChat] *)

Lemma App_upload_empty (o : UploadOracle) (s : App.State) :
  fire (App.handleUploadAndStartChat [] o) s = (Ok tt, s, []).
Proof. reflexivity. Qed.

Lemma App_upload_success (files : list File) (o : UploadOracle) (s : App.State) :
  files <> [] ->
  allStepsSucceed (List.length files) o = true ->
  exists h qs t,
    created o = Ok h /\ questions o = Ok qs
    /\ fire (App.handleUploadAndStartChat files o) s =
       (Ok tt,
        {| App.status := Chatting; App.searchSource := App.searchSource s;
           App.error := App.error s; App.isUploadModalOpen := false;
           App.uploadProgress := None;
           App.activeRagStoreName := Some h; App.chatHistory := [];
           App.isQueryLoading := App.isQueryLoading s;
           App.exampleQuestions := qs; App.documentName := docName files |},
        t)
    /\ effects t = startSequenceCalls files o ++ [SetTimeout 500].
Proof.
  intros Hne Hall. unfold allStepsSucceed in Hall.
  apply andb_prop in Hall as [Hall Hq]. apply andb_prop in Hall as [Hc Hu].
  fold (allUploadsOk (uploaded o) 0 (List.length files)) in Hu.
  unfold startSequenceCalls. rewrite Hu.
  destruct (created o) as [h|] eqn:Ec; [|discriminate].
  destruct (questions o) as [qs|] eqn:Eq; [|discriminate].
  exists h, qs.
  unfold App.handleUploadAndStartChat, fire.
  destruct (Nat.eqb_spec (List.length files) 0) as [E0|E0];
    [apply length_zero_iff_nil in E0; congruence|].
  rewrite Ec, Eq. open_app s.
  act_norm.
  match goal with |- context [App.uploadLoop h ?len 0 files ?up ?s1 ?t1] =>
    destruct (App_uploadLoop_spec h len up files 0 s1 t1)
      as (r & p & t' & Heq & Heff & Hok) end.
  rewrite Heq. rewrite Hu in Hok.
  destruct r as [[]|]; [|discriminate].
  act_norm.
  eexists. split; [reflexivity|]. split; [reflexivity|]. split.
  - destruct st; reflexivity.
  - destruct st; unfold effects in *; rewrite !map_app, Heff;
      rewrite uploadsAttempted_all_ok by assumption;
      cbn; rewrite <- !app_assoc; reflexivity.
Qed.

Lemma App_upload_failure (files : list File) (o : UploadOracle) (s : App.State) :
  files <> [] ->
  allStepsSucceed (List.length files) o = false ->
  exists e t,
    fire (App.handleUploadAndStartChat files o) s =
       (Ok tt,
        {| App.status := if AppStatus_eqb (App.status s) Error then Error else Chatting;
           App.searchSource := App.searchSource s;
           App.error := Some (errorText "Failed to start chat session" e);
           App.isUploadModalOpen := App.isUploadModalOpen s;
           App.uploadProgress := None;
           App.activeRagStoreName := App.activeRagStoreName s;
           App.chatHistory := App.chatHistory s;
           App.isQueryLoading := App.isQueryLoading s;
           App.exampleQuestions := App.exampleQuestions s;
           App.documentName := App.documentName s |},
        t)
    /\ effects t =
       startSequenceCalls files o ++ [ConsoleError "Failed to start chat session"].
Proof.
  intros Hne Hall.
  unfold App.handleUploadAndStartChat, fire, startSequenceCalls.
  destruct (Nat.eqb_spec (List.length files) 0) as [E0|E0];
    [apply length_zero_iff_nil in E0; congruence|].
  open_app s.
  destruct (created o) as [h|e] eqn:Ec.
  2:{ act_norm. exists e. eexists. split; [destruct st; reflexivity|].
      destruct st; reflexivity. }
  act_norm.
  match goal with |- context [App.uploadLoop h ?len 0 files ?up ?s1 ?t1] =>
    destruct (App_uploadLoop_spec h len up files 0 s1 t1)
      as (r & p & t' & Heq & Heff & Hok) end.
  rewrite Heq.
  destruct r as [[]|e].
  - cbn in Hok. rewrite <- Hok.
    destruct (questions o) as [qs|e] eqn:Eq.
    + exfalso. unfold allStepsSucceed in Hall. fold (allUploadsOk (uploaded o) 0 (List.length files)) in Hall.
      rewrite Ec, Eq, <- Hok in Hall. discriminate.
    + act_norm. exists e. eexists. split; [destruct st; reflexivity|].
      destruct st; unfold effects in *; rewrite !map_app, Heff; cbn;
        rewrite <- !app_assoc; reflexivity.
  - cbn in Hok. rewrite <- Hok. act_norm. exists e. eexists.
    split; [destruct st; reflexivity|].
    destruct st; unfold effects in *; rewrite !map_app, Heff; cbn;
      rewrite app_nil_r; reflexivity.
Qed.

Lemma AppKey_upload_without_key (files : list File) (o : UploadOracle) (s : AppKey.State) :
  AppKey.isApiKeySelected s = false ->
  fire (AppKey.handleUploadAndStartChat files o) s =
    (Ok tt,
     {| AppKey.status := AppKey.status s; AppKey.searchSource := AppKey.searchSource s;
        AppKey.isApiKeySelected := false;
        AppKey.apiKeyError := Some "Please select your Gemini API Key first.";
        AppKey.error := AppKey.error s;
        AppKey.isUploadModalOpen := AppKey.isUploadModalOpen s;
        AppKey.uploadProgress := AppKey.uploadProgress s;
        AppKey.activeRagStoreName := AppKey.activeRagStoreName s;
        AppKey.chatHistory := AppKey.chatHistory s;
        AppKey.isQueryLoading := AppKey.isQueryLoading s;
        AppKey.exampleQuestions := AppKey.exampleQuestions s;
        AppKey.documentName := AppKey.documentName s |},
     []).
Proof.
  intros Hk. unfold AppKey.handleUploadAndStartChat, fire. rewrite Hk.
  open_appkey s. cbn in Hk. subst. reflexivity.
Qed.

Lemma AppKey_upload_success (files : list File) (o : UploadOracle) (s : AppKey.State) :
  AppKey.isApiKeySelected s = true ->
  files <> [] ->
  allStepsSucceed (List.length files) o = true ->
  exists h qs t,
    created o = Ok h /\ questions o = Ok qs
    /\ fire (AppKey.handleUploadAndStartChat files o) s =
       (Ok tt,
        {| AppKey.status := Chatting; AppKey.searchSource := AppKey.searchSource s;
           AppKey.isApiKeySelected := true;
           AppKey.apiKeyError := AppKey.apiKeyError s;
           AppKey.error := AppKey.error s; AppKey.isUploadModalOpen := false;
           AppKey.uploadProgress := None;
           AppKey.activeRagStoreName := Some h; AppKey.chatHistory := [];
           AppKey.isQueryLoading := AppKey.isQueryLoading s;
           AppKey.exampleQuestions := qs; AppKey.documentName := docName files |},
        t)
    /\ effects t = startSequenceCalls files o ++ [SetTimeout 500].
Proof.
  intros Hk Hne Hall. unfold allStepsSucceed in Hall.
  apply andb_prop in Hall as [Hall Hq]. apply andb_prop in Hall as [Hc Hu].
  fold (allUploadsOk (uploaded o) 0 (List.length files)) in Hu.
  unfold startSequenceCalls. rewrite Hu.
  destruct (created o) as [h|] eqn:Ec; [|discriminate].
  destruct (questions o) as [qs|] eqn:Eq; [|discriminate].
  exists h, qs.
  unfold AppKey.handleUploadAndStartChat, fire. rewrite Hk.
  destruct (Nat.eqb_spec (List.length files) 0) as [E0|E0];
    [apply length_zero_iff_nil in E0; congruence|].
  rewrite Ec, Eq. open_appkey s. cbn in Hk. subst ks.
  act_norm.
  match goal with |- context [AppKey.uploadLoop h ?len 0 files ?up ?s1 ?t1] =>
    destruct (AppKey_uploadLoop_spec h len up files 0 s1 t1)
      as (r & p & t' & Heq & Heff & Hok) end.
  rewrite Heq. rewrite Hu in Hok.
  destruct r as [[]|]; [|discriminate].
  act_norm.
  eexists. split; [reflexivity|]. split; [reflexivity|]. split.
  - destruct st; reflexivity.
  - destruct st; unfold effects in *; rewrite !map_app, Heff;
      rewrite uploadsAttempted_all_ok by assumption;
      cbn; rewrite <- !app_assoc; reflexivity.
Qed.

(** On a failed start sequence the [catch] block either asks for another
    API key or reports a general error; the session cells are untouched
    either way. *)
Lemma AppKey_upload_failure (files : list File) (o : UploadOracle) (s : AppKey.State) :
  AppKey.isApiKeySelected s = true ->
  files <> [] ->
  allStepsSucceed (List.length files) o = false ->
  exists e t,
    fire (AppKey.handleUploadAndStartChat files o) s =
       (Ok tt,
        {| AppKey.status :=
             if AppStatus_eqb (AppKey.status s) Error
             then (if AppKey.isApiKeyFailure e then Uploading else Error)
             else Chatting;
           AppKey.searchSource := AppKey.searchSource s;
           AppKey.isApiKeySelected := negb (AppKey.isApiKeyFailure e);
           AppKey.apiKeyError :=
             if AppKey.isApiKeyFailure e
             then Some "The selected API key is invalid. Please select a different one and try again."
             else AppKey.apiKeyError s;
           AppKey.error :=
             if AppKey.isApiKeyFailure e then AppKey.error s
             else Some (errorText "Failed to start chat session" e);
           AppKey.isUploadModalOpen := AppKey.isUploadModalOpen s;
           AppKey.uploadProgress := None;
           AppKey.activeRagStoreName := AppKey.activeRagStoreName s;
           AppKey.chatHistory := AppKey.chatHistory s;
           AppKey.isQueryLoading := AppKey.isQueryLoading s;
           AppKey.exampleQuestions := AppKey.exampleQuestions s;
           AppKey.documentName := AppKey.documentName s |},
        t)
    /\ effects t =
       startSequenceCalls files o
       ++ (if AppKey.isApiKeyFailure e then []
           else [ConsoleError "Failed to start chat session"]).
Proof.
  intros Hk Hne Hall.
  unfold AppKey.handleUploadAndStartChat, fire, startSequenceCalls. rewrite Hk.
  destruct (Nat.eqb_spec (List.length files) 0) as [E0|E0];
    [apply length_zero_iff_nil in E0; congruence|].
  open_appkey s. cbn in Hk. subst ks.
  destruct (created o) as [h|e] eqn:Ec.
  2:{ act_norm. exists e.
      destruct (AppKey.isApiKeyFailure e); act_norm; eexists;
        (split; [destruct st; reflexivity|]); destruct st; reflexivity. }
  act_norm.
  match goal with |- context [AppKey.uploadLoop h ?len 0 files ?up ?s1 ?t1] =>
    destruct (AppKey_uploadLoop_spec h len up files 0 s1 t1)
      as (r & p & t' & Heq & Heff & Hok) end.
  rewrite Heq.
  destruct r as [[]|e].
  - cbn in Hok. rewrite <- Hok.
    destruct (questions o) as [qs|e] eqn:Eq.
    + exfalso. unfold allStepsSucceed in Hall.
      fold (allUploadsOk (uploaded o) 0 (List.length files)) in Hall.
      rewrite Ec, Eq, <- Hok in Hall. discriminate.
    + act_norm. exists e.
      destruct (AppKey.isApiKeyFailure e); act_norm; eexists;
        (split; [destruct st; reflexivity|]);
        destruct st; unfold effects in *; rewrite ?map_app, Heff; cbn;
        rewrite <- ?app_assoc, ?app_nil_r; reflexivity.
  - cbn in Hok. rewrite <- Hok. act_norm. exists e.
    destruct (AppKey.isApiKeyFailure e); act_norm; eexists;
      (split; [destruct st; reflexivity|]);
      destruct st; unfold effects in *; rewrite ?map_app, Heff; cbn;
      rewrite ?app_nil_r; reflexivity.
Qed.

(** ** Ending a session, [handleEndChat] *)

(** The state [handleEndChat] leaves behind. *)
Lemma App_handleEndChat_state (s : App.State) :
  stateOf (fire App.handleEndChat s) =
  {| App.status := Chatting; App.searchSource := FileSearch;
     App.error := App.error s;
     App.isUploadModalOpen := App.isUploadModalOpen s;
     App.uploadProgress := App.uploadProgress s;
     App.activeRagStoreName := None; App.chatHistory := [];
     App.isQueryLoading := App.isQueryLoading s;
     App.exampleQuestions := []; App.documentName := "" |}.
Proof.
  unfold fire, App.handleEndChat. open_app s.
  destruct ah as [[|c h]|]; reflexivity.
Qed.

Lemma AppKey_handleEndChat_state (s : AppKey.State) :
  stateOf (fire AppKey.handleEndChat s) =
  {| AppKey.status := Chatting; AppKey.searchSource := FileSearch;
     AppKey.isApiKeySelected := AppKey.isApiKeySelected s;
     AppKey.apiKeyError := AppKey.apiKeyError s;
     AppKey.error := AppKey.error s;
     AppKey.isUploadModalOpen := AppKey.isUploadModalOpen s;
     AppKey.uploadProgress := AppKey.uploadProgress s;
     AppKey.activeRagStoreName := None; AppKey.chatHistory := [];
     AppKey.isQueryLoading := AppKey.isQueryLoading s;
     AppKey.exampleQuestions := []; AppKey.documentName := "" |}.
Proof.
  unfold fire, AppKey.handleEndChat. open_appkey s.
  destruct ah as [[|c h]|]; reflexivity.
Qed.

(** The only effect of [handleEndChat] is the deletion request, issued for a
    handle that is a non-empty string. *)
Lemma App_handleEndChat_effects (s : App.State) :
  effects (traceOf (fire App.handleEndChat s)) =
  match App.activeRagStoreName s with
  | Some h => if truthy (Some h) then [DeleteRagStore h] else []
  | None => []
  end.
Proof.
  unfold fire, App.handleEndChat. open_app s.
  destruct ah as [[|c h]|]; reflexivity.
Qed.

Lemma AppKey_handleEndChat_effects (s : AppKey.State) :
  effects (traceOf (fire AppKey.handleEndChat s)) =
  match AppKey.activeRagStoreName s with
  | Some h => if truthy (Some h) then [DeleteRagStore h] else []
  | None => []
  end.
Proof.
  unfold fire, AppKey.handleEndChat. open_appkey s.
  destruct ah as [[|c h]|]; reflexivity.
Qed.

(** ** Claims *)

(** C9: [handleEndChat] always resets the search source to [FileSearch],
    whatever the mode of the session that is ended; the mode after it is
    never [GoogleSearch].  Both variants of [App]. *)
Theorem C9_end_session_resets_mode (s : App.State) (k : AppKey.State) :
  App.searchSource (stateOf (fire App.handleEndChat s)) = FileSearch
  /\ App.searchSource (stateOf (fire App.handleEndChat s)) <> GoogleSearch
  /\ AppKey.searchSource (stateOf (fire AppKey.handleEndChat k)) = FileSearch
  /\ AppKey.searchSource (stateOf (fire AppKey.handleEndChat k)) <> GoogleSearch.
Proof.
  rewrite App_handleEndChat_state, AppKey_handleEndChat_state. cbn.
  repeat split; discriminate.
Qed.

(** C6: after [handleEndChat] the session is idle: no index handle, empty
    transcript, no suggested questions, empty document label, status
    [Chatting].  The outcome of the remote deletion is not an input of the
    transition; when the deletion settles, a failure only writes to the
    console: the state, and with it the error cell and the status shown to
    the user, stays as it is.  Both variants of [App]. *)
Theorem C6_end_session_idle_whatever_delete_does
    (s : App.State) (k : AppKey.State) (outcome : Result unit) :
  let s' := stateOf (fire App.handleEndChat s) in
  let k' := stateOf (fire AppKey.handleEndChat k) in
  (App.activeRagStoreName s' = None /\ App.chatHistory s' = []
   /\ App.exampleQuestions s' = [] /\ App.documentName s' = ""
   /\ App.status s' = Chatting /\ App.error s' = App.error s)
  /\ (stateOf (fire (App.onDeleteSettled outcome) s') = s'
      /\ effects (traceOf (fire (App.onDeleteSettled outcome) s')) =
         if isOk outcome then []
         else [ConsoleError "Failed to delete RAG store in background"])
  /\ (AppKey.activeRagStoreName k' = None /\ AppKey.chatHistory k' = []
      /\ AppKey.exampleQuestions k' = [] /\ AppKey.documentName k' = ""
      /\ AppKey.status k' = Chatting /\ AppKey.error k' = AppKey.error k)
  /\ (stateOf (fire (AppKey.onDeleteSettled outcome) k') = k'
      /\ effects (traceOf (fire (AppKey.onDeleteSettled outcome) k')) =
         if isOk outcome then []
         else [ConsoleError "Failed to delete RAG store in background"]).
Proof.
  cbv zeta. rewrite App_handleEndChat_state, AppKey_handleEndChat_state.
  destruct outcome as [[]|e]; cbn; repeat split; reflexivity.
Qed.

(** C3: in [FileSearch] mode with a null index handle, [handleSendMessage]
    does nothing: it returns normally, the whole state (transcript included)
    is unchanged and the effect trace is empty, so no remote call is issued.
    Both variants of [App]. *)
Theorem C3_send_without_handle_is_noop
    (msg : string) (reply : Result QueryResult) (s : App.State) (k : AppKey.State) :
  App.searchSource s = FileSearch -> App.activeRagStoreName s = None ->
  AppKey.searchSource k = FileSearch -> AppKey.activeRagStoreName k = None ->
  fire (App.handleSendMessage msg reply) s = (Ok tt, s, [])
  /\ fire (AppKey.handleSendMessage msg reply) k = (Ok tt, k, []).
Proof.
  intros Hs Ha Hk Hb. unfold fire, App.handleSendMessage, AppKey.handleSendMessage.
  rewrite Hs, Ha, Hk, Hb. split; reflexivity.
Qed.

Lemma C3_send_without_handle_is_noop_witness :
  fire (App.handleSendMessage "What is the tyre pressure?" (Ok {| resultText := "32 psi"; resultChunks := None |})) idleApp
    = (Ok tt, idleApp, [])
  /\ fire (AppKey.handleSendMessage "What is the tyre pressure?" (Ok {| resultText := "32 psi"; resultChunks := None |})) idleAppKey
    = (Ok tt, idleAppKey, []).
Proof.
  apply (C3_send_without_handle_is_noop
           "What is the tyre pressure?"
           (Ok {| resultText := "32 psi"; resultChunks := None |})
           idleApp idleAppKey); reflexivity.
Defined.

Lemma App_send_failure (msg : string) (err : Thrown) (s : App.State) :
  queryIssued (App.searchSource s) (App.activeRagStoreName s) ->
  exists t,
    fire (App.handleSendMessage msg (Threw err)) s =
    (Ok tt,
     {| App.status := Error; App.searchSource := App.searchSource s;
        App.error := Some (errorText "Failed to get response" err);
        App.isUploadModalOpen := App.isUploadModalOpen s;
        App.uploadProgress := App.uploadProgress s;
        App.activeRagStoreName := App.activeRagStoreName s;
        App.chatHistory := App.chatHistory s ++ [userMessage msg; errorMessage];
        App.isQueryLoading := false;
        App.exampleQuestions := App.exampleQuestions s;
        App.documentName := App.documentName s |},
     t)
    /\ effects t =
       [queryCall (App.searchSource s) (App.activeRagStoreName s) msg;
        ConsoleError "Failed to get response"].
Proof.
  intros H. unfold fire, App.handleSendMessage, queryCall. open_app s. cbn in H.
  destruct H as [H|H].
  - subst src. act_norm. eexists. split; [rewrite <- app_assoc|]; reflexivity.
  - destruct ah as [[|c h]|]; cbn in H; try discriminate.
    destruct src; act_norm; eexists; (split; [rewrite <- app_assoc|]; reflexivity).
Qed.

Lemma AppKey_send_failure (msg : string) (err : Thrown) (s : AppKey.State) :
  queryIssued (AppKey.searchSource s) (AppKey.activeRagStoreName s) ->
  exists t,
    fire (AppKey.handleSendMessage msg (Threw err)) s =
    (Ok tt,
     {| AppKey.status := Error; AppKey.searchSource := AppKey.searchSource s;
        AppKey.isApiKeySelected := AppKey.isApiKeySelected s;
        AppKey.apiKeyError := AppKey.apiKeyError s;
        AppKey.error := Some (errorText "Failed to get response" err);
        AppKey.isUploadModalOpen := AppKey.isUploadModalOpen s;
        AppKey.uploadProgress := AppKey.uploadProgress s;
        AppKey.activeRagStoreName := AppKey.activeRagStoreName s;
        AppKey.chatHistory := AppKey.chatHistory s ++ [userMessage msg; errorMessage];
        AppKey.isQueryLoading := false;
        AppKey.exampleQuestions := AppKey.exampleQuestions s;
        AppKey.documentName := AppKey.documentName s |},
     t)
    /\ effects t =
       [queryCall (AppKey.searchSource s) (AppKey.activeRagStoreName s) msg;
        ConsoleError "Failed to get response"].
Proof.
  intros H. unfold fire, AppKey.handleSendMessage, queryCall. open_appkey s. cbn in H.
  destruct H as [H|H].
  - subst src. act_norm. eexists. split; [rewrite <- app_assoc|]; reflexivity.
  - destruct ah as [[|c h]|]; cbn in H; try discriminate.
    destruct src; act_norm; eexists; (split; [rewrite <- app_assoc|]; reflexivity).
Qed.

(** C5: a query whose remote call fails appends exactly the user's message
    followed by the error placeholder: the transcript grows by two and the
    messages that were there stay in place.  Both variants of [App]. *)
Theorem C5_failed_query_appends_user_then_placeholder
    (msg : string) (err : Thrown) (s : App.State) (k : AppKey.State) :
  queryIssued (App.searchSource s) (App.activeRagStoreName s) ->
  queryIssued (AppKey.searchSource k) (AppKey.activeRagStoreName k) ->
  let hs := App.chatHistory (stateOf (fire (App.handleSendMessage msg (Threw err)) s)) in
  let hk := AppKey.chatHistory (stateOf (fire (AppKey.handleSendMessage msg (Threw err)) k)) in
  (hs = App.chatHistory s ++ [userMessage msg; errorMessage]
   /\ List.length hs = List.length (App.chatHistory s) + 2
   /\ firstn (List.length (App.chatHistory s)) hs = App.chatHistory s)
  /\ (hk = AppKey.chatHistory k ++ [userMessage msg; errorMessage]
      /\ List.length hk = List.length (AppKey.chatHistory k) + 2
      /\ firstn (List.length (AppKey.chatHistory k)) hk = AppKey.chatHistory k)
  /\ role (userMessage msg) = user /\ parts (userMessage msg) = [ {| text := msg |} ]
  /\ role errorMessage = model.
Proof.
  intros Hs Hk.
  destruct (App_send_failure msg err s Hs) as (t & Es & _).
  destruct (AppKey_send_failure msg err k Hk) as (u & Ek & _).
  cbv zeta. rewrite Es, Ek. cbn [stateOf fst snd App.chatHistory AppKey.chatHistory].
  rewrite !length_app, !firstn_app, !firstn_all, !Nat.sub_diag. cbn [firstn List.length].
  rewrite !app_nil_r. repeat split; reflexivity.
Qed.

Lemma C5_failed_query_appends_user_then_placeholder_witness :
  let hs := App.chatHistory (stateOf (fire (App.handleSendMessage "hello" (Threw (ErrorObj "503"))) webChat)) in
  let hk := AppKey.chatHistory (stateOf (fire (AppKey.handleSendMessage "hello" (Threw (ErrorObj "503"))) webChatKey)) in
  (hs = App.chatHistory webChat ++ [userMessage "hello"; errorMessage]
   /\ List.length hs = List.length (App.chatHistory webChat) + 2
   /\ firstn (List.length (App.chatHistory webChat)) hs = App.chatHistory webChat)
  /\ (hk = AppKey.chatHistory webChatKey ++ [userMessage "hello"; errorMessage]
      /\ List.length hk = List.length (AppKey.chatHistory webChatKey) + 2
      /\ firstn (List.length (AppKey.chatHistory webChatKey)) hk = AppKey.chatHistory webChatKey)
  /\ role (userMessage "hello") = user /\ parts (userMessage "hello") = [ {| text := "hello" |} ]
  /\ role errorMessage = model.
Proof.
  apply (C5_failed_query_appends_user_then_placeholder
           "hello" (ErrorObj "503") webChat webChatKey);
    left; reflexivity.
Defined.

(** C4, as stated, fails: in a web-grounded session in the [Chatting]
    status, a query whose remote call fails leaves the status [Error], not
    [Chatting]. *)
Lemma C4_failed_query_not_ready_counterexample :
  App.status webChat = Chatting
  /\ queryIssued (App.searchSource webChat) (App.activeRagStoreName webChat)
  /\ App.status (stateOf (fire (App.handleSendMessage "hello" (Threw (ErrorObj "503")))
                              webChat)) = Error
  /\ App.status (stateOf (fire (App.handleSendMessage "hello" (Threw (ErrorObj "503")))
                              webChat)) <> Chatting.
Proof.
  repeat split; try reflexivity; [left; reflexivity|discriminate].
Qed.

(** C4, amended: a query whose remote call fails puts the error placeholder
    at the end of the transcript, after the user's message, in place of a
    model response, and moves the application to the [Error] status with the
    error text stored; [clearError], the explicit dismissal, then returns it
    to [Chatting] with the transcript kept.  Both variants of [App]. *)
Theorem C4_failed_query_enters_error_state
    (msg : string) (err : Thrown) (s : App.State) (k : AppKey.State) :
  queryIssued (App.searchSource s) (App.activeRagStoreName s) ->
  queryIssued (AppKey.searchSource k) (AppKey.activeRagStoreName k) ->
  let s' := stateOf (fire (App.handleSendMessage msg (Threw err)) s) in
  let k' := stateOf (fire (AppKey.handleSendMessage msg (Threw err)) k) in
  (App.status s' = Error
   /\ App.error s' = Some (errorText "Failed to get response" err)
   /\ App.chatHistory s' = App.chatHistory s ++ [userMessage msg; errorMessage]
   /\ App.isQueryLoading s' = false
   /\ App.status (stateOf (fire App.clearError s')) = Chatting
   /\ App.error (stateOf (fire App.clearError s')) = None
   /\ App.chatHistory (stateOf (fire App.clearError s')) = App.chatHistory s')
  /\ (AppKey.status k' = Error
      /\ AppKey.error k' = Some (errorText "Failed to get response" err)
      /\ AppKey.chatHistory k' = AppKey.chatHistory k ++ [userMessage msg; errorMessage]
      /\ AppKey.isQueryLoading k' = false
      /\ AppKey.status (stateOf (fire AppKey.clearError k')) = Chatting
      /\ AppKey.error (stateOf (fire AppKey.clearError k')) = None
      /\ AppKey.chatHistory (stateOf (fire AppKey.clearError k')) = AppKey.chatHistory k').
Proof.
  intros Hs Hk.
  destruct (App_send_failure msg err s Hs) as (t & Es & _).
  destruct (AppKey_send_failure msg err k Hk) as (u & Ek & _).
  cbv zeta. rewrite Es, Ek. cbn. repeat split; reflexivity.
Qed.

Lemma C4_failed_query_enters_error_state_witness :
  App.status (stateOf (fire (App.handleSendMessage "hello" (Threw (ErrorObj "503"))) webChat)) = Error
  /\ AppKey.status (stateOf (fire (AppKey.handleSendMessage "hello" (Threw (ErrorObj "503"))) webChatKey)) = Error.
Proof.
  destruct (C4_failed_query_enters_error_state
              "hello" (ErrorObj "503") webChat webChatKey) as [[H _] [H' _]];
    [left; reflexivity | left; reflexivity | ].
  split; [exact H | exact H'].
Defined.

Lemma startSequenceCalls_create_failed (files : list File) (o : UploadOracle) :
  isOk (created o) = false ->
  startSequenceCalls files o = [CreateRagStore ("chat-session-" ++ timeToString (now o))].
Proof.
  unfold startSequenceCalls. destruct (created o); [discriminate|reflexivity].
Qed.

(** After an upload that fails no further upload and no question request is
    part of the sequence. *)
Lemma startSequenceCalls_upload_failed (files : list File) (o : UploadOracle)
    (h : string) (j : nat) :
  created o = Ok h -> j < List.length files -> isOk (uploaded o j) = false ->
  exists attempted,
    startSequenceCalls files o =
      CreateRagStore ("chat-session-" ++ timeToString (now o))
      :: map (UploadToRagStore h) attempted
    /\ List.length attempted <= j + 1.
Proof.
  intros Hc Hj Hf. unfold startSequenceCalls. rewrite Hc.
  assert (Hall : allUploadsOk (uploaded o) 0 (List.length files) = false).
  { unfold allUploadsOk. apply not_true_is_false. intros Ht.
    rewrite forallb_forall in Ht. specialize (Ht j).
    rewrite Ht in Hf; [discriminate|]. apply in_seq. lia. }
  rewrite Hall, app_nil_r.
  exists (uploadsAttempted (uploaded o) 0 files). split; [reflexivity|].
  apply uploadsAttempted_stops. exact Hf.
Qed.

(** C8: the start sequence commits (handle set, label set, transcript reset)
    when every step succeeds; when any step fails the handle, the transcript
    and the label are the prior ones, and the effects are the calls up to the
    failing one followed by the error report.  Both variants of [App]. *)
Theorem C8_start_commits_only_on_full_success
    (files : list File) (o : UploadOracle) (s : App.State) (k : AppKey.State) :
  files <> [] ->
  AppKey.isApiKeySelected k = true ->
  let out := fire (App.handleUploadAndStartChat files o) s in
  let outk := fire (AppKey.handleUploadAndStartChat files o) k in
  if allStepsSucceed (List.length files) o
  then
    (exists h, created o = Ok h
               /\ App.activeRagStoreName (stateOf out) = Some h
               /\ AppKey.activeRagStoreName (stateOf outk) = Some h)
    /\ App.documentName (stateOf out) = docName files
    /\ App.chatHistory (stateOf out) = []
    /\ AppKey.documentName (stateOf outk) = docName files
    /\ AppKey.chatHistory (stateOf outk) = []
  else
    (App.activeRagStoreName (stateOf out) = App.activeRagStoreName s
     /\ App.chatHistory (stateOf out) = App.chatHistory s
     /\ App.documentName (stateOf out) = App.documentName s
     /\ effects (traceOf out) =
        startSequenceCalls files o ++ [ConsoleError "Failed to start chat session"])
    /\ (AppKey.activeRagStoreName (stateOf outk) = AppKey.activeRagStoreName k
        /\ AppKey.chatHistory (stateOf outk) = AppKey.chatHistory k
        /\ AppKey.documentName (stateOf outk) = AppKey.documentName k
        /\ exists e,
             effects (traceOf outk) =
             startSequenceCalls files o
             ++ (if AppKey.isApiKeyFailure e then []
                 else [ConsoleError "Failed to start chat session"])).
Proof.
  intros Hne Hkey. cbv zeta.
  destruct (allStepsSucceed (List.length files) o) eqn:Hall.
  - destruct (App_upload_success files o s Hne Hall) as (h & qs & t & Hc & _ & Es & _).
    destruct (AppKey_upload_success files o k Hkey Hne Hall)
      as (h' & qs' & t' & Hc' & _ & Ek & _).
    rewrite Es, Ek. cbn.
    split; [|repeat split; reflexivity].
    assert (h' = h) by congruence. subst h'.
    exists h. split; [assumption|]. split; reflexivity.
  - destruct (App_upload_failure files o s Hne Hall) as (e & t & Es & Et).
    destruct (AppKey_upload_failure files o k Hkey Hne Hall) as (e' & t' & Ek & Et').
    rewrite Es, Ek. cbn [stateOf traceOf fst snd]. cbn.
    split; [repeat split; assumption|].
    split; [reflexivity|]. split; [reflexivity|]. split; [reflexivity|].
    exists e'. assumption.
Qed.

Lemma C8_start_commits_only_on_full_success_witness :
  (App.activeRagStoreName
     (stateOf (fire (App.handleUploadAndStartChat [manualA; manualB] goodOracle) idleApp))
   = Some "fileSearchStores/s1")
  /\ (App.activeRagStoreName
        (stateOf (fire (App.handleUploadAndStartChat [manualA; manualB; manualC]
                          secondUploadFails) idleApp))
      = None).
Proof.
  split.
  - assert (Hne : [manualA; manualB] <> []) by discriminate.
    assert (Hk : AppKey.isApiKeySelected idleAppKey = true) by reflexivity.
    pose proof (C8_start_commits_only_on_full_success
                  [manualA; manualB] goodOracle idleApp idleAppKey Hne Hk) as H.
    cbv zeta in H.
    change (allStepsSucceed (List.length [manualA; manualB]) goodOracle) with true in H.
    destruct H as [(h & Hc & Ha & _) _]. rewrite Ha. cbn in Hc. congruence.
  - assert (Hne : [manualA; manualB; manualC] <> []) by discriminate.
    assert (Hk : AppKey.isApiKeySelected idleAppKey = true) by reflexivity.
    pose proof (C8_start_commits_only_on_full_success
                  [manualA; manualB; manualC] secondUploadFails idleApp idleAppKey Hne Hk)
      as H.
    cbv zeta in H.
    change (allStepsSucceed (List.length [manualA; manualB; manualC]) secondUploadFails)
      with false in H.
    destruct H as [(Ha & _) _]. rewrite Ha. reflexivity.
Defined.

(** C2: the label a successful start sequence stores: the file's name for
    one file, the two names joined by " & " for two files, and the count
    followed by " documents" for three or more.  Both variants of [App]
    store the same label. *)
Theorem C2_session_label
    (files : list File) (o : UploadOracle) (s : App.State) (k : AppKey.State) :
  files <> [] ->
  allStepsSucceed (List.length files) o = true ->
  AppKey.isApiKeySelected k = true ->
  let d := App.documentName (stateOf (fire (App.handleUploadAndStartChat files o) s)) in
  let dk := AppKey.documentName (stateOf (fire (AppKey.handleUploadAndStartChat files o) k)) in
  dk = d
  /\ (forall a, files = [a] -> d = name a)
  /\ (forall a b, files = [a; b] -> d = (name a ++ " & " ++ name b)%string)
  /\ (3 <= List.length files ->
      d = (numToString (List.length files) ++ " documents")%string).
Proof.
  intros Hne Hall Hkey. cbv zeta.
  destruct (App_upload_success files o s Hne Hall) as (h & qs & t & _ & _ & Es & _).
  destruct (AppKey_upload_success files o k Hkey Hne Hall) as (h' & qs' & t' & _ & _ & Ek & _).
  rewrite Es, Ek. cbn [stateOf fst snd App.documentName AppKey.documentName].
  split; [reflexivity|]. split; [|split].
  - intros a ->. reflexivity.
  - intros a b ->. reflexivity.
  - intros H3. destruct files as [|a [|b [|c rest]]]; cbn in H3; try lia. reflexivity.
Qed.

Lemma C2_session_label_witness :
  App.documentName
    (stateOf (fire (App.handleUploadAndStartChat [manualA; manualB; manualC] goodOracle)
                   idleApp)) = "3 documents"
  /\ App.documentName
       (stateOf (fire (App.handleUploadAndStartChat [manualA; manualB] goodOracle)
                      idleApp)) = "a.pdf & b.pdf"
  /\ App.documentName
       (stateOf (fire (App.handleUploadAndStartChat [manualA] goodOracle)
                      idleApp)) = "a.pdf".
Proof.
  split; [|split].
  - destruct (C2_session_label [manualA; manualB; manualC] goodOracle idleApp idleAppKey)
      as (_ & _ & _ & H); [discriminate|reflexivity|reflexivity|].
    rewrite H; [reflexivity|cbn; lia].
  - destruct (C2_session_label [manualA; manualB] goodOracle idleApp idleAppKey)
      as (_ & _ & H & _); [discriminate|reflexivity|reflexivity|].
    rewrite (H manualA manualB eq_refl). reflexivity.
  - destruct (C2_session_label [manualA] goodOracle idleApp idleAppKey)
      as (_ & H & _); [discriminate|reflexivity|reflexivity|].
    rewrite (H manualA eq_refl). reflexivity.
Defined.

(** C7: a switch to a different mode ends the session before anything is
    fetched: the deletion request for a usable handle is the first effect;
    the state at the moment [generateGoogleSearchQuestions] is issued already
    has an empty transcript, no suggested questions and no handle; and the
    resulting state has an empty transcript, a null handle, the new mode, and
    as suggested questions only what was freshly fetched (none when nothing
    was fetched).  Both variants of [App]. *)
Theorem C7_mode_switch_clears_before_fetching
    (source : SearchSource) (fetched : Result (list string))
    (s : App.State) (k : AppKey.State) :
  source <> App.searchSource s ->
  source <> AppKey.searchSource k ->
  let out := fire (App.handleSwitchSource source fetched) s in
  let outk := fire (AppKey.handleSwitchSource source fetched) k in
  (App.chatHistory (stateOf out) = []
   /\ App.activeRagStoreName (stateOf out) = None
   /\ App.searchSource (stateOf out) = source
   /\ App.exampleQuestions (stateOf out) =
      match source, fetched with
      | GoogleSearch, Ok qs => qs
      | _, _ => []
      end
   /\ (forall h, App.activeRagStoreName s = Some h -> truthy (Some h) = true ->
                 hd_error (effects (traceOf out)) = Some (DeleteRagStore h))
   /\ (forall st, In (GenerateGoogleSearchQuestions, st) (traceOf out) ->
                  App.chatHistory st = [] /\ App.exampleQuestions st = []
                  /\ App.activeRagStoreName st = None))
  /\ (AppKey.chatHistory (stateOf outk) = []
      /\ AppKey.activeRagStoreName (stateOf outk) = None
      /\ AppKey.searchSource (stateOf outk) = source
      /\ AppKey.exampleQuestions (stateOf outk) =
         match source, fetched, AppKey.isApiKeySelected k with
         | GoogleSearch, Ok qs, true => qs
         | _, _, _ => []
         end
      /\ (forall h, AppKey.activeRagStoreName k = Some h -> truthy (Some h) = true ->
                    hd_error (effects (traceOf outk)) = Some (DeleteRagStore h))
      /\ (forall st, In (GenerateGoogleSearchQuestions, st) (traceOf outk) ->
                     AppKey.chatHistory st = [] /\ AppKey.exampleQuestions st = []
                     /\ AppKey.activeRagStoreName st = None)).
Proof.
  intros Hs Hk. cbv zeta. split.
  - unfold App.handleSwitchSource, App.handleEndChat. open_app s. cbn in Hs.
    destruct source, src; try congruence;
      destruct ah as [[|c h]|]; destruct fetched as [qs|e]; act_norm; cbn;
      switch_facts.
  - unfold AppKey.handleSwitchSource, AppKey.handleEndChat. open_appkey k. cbn in Hk.
    destruct source, src; try congruence;
      destruct ah as [[|c h]|]; destruct fetched as [qs|e]; destruct ks; act_norm; cbn;
      switch_facts.
Qed.

Lemma C7_mode_switch_clears_before_fetching_witness :
  let out := fire (App.handleSwitchSource GoogleSearch (Ok ["What is new today?"])) docChat in
  App.activeRagStoreName docChat = Some "fileSearchStores/s1"
  /\ App.chatHistory (stateOf out) = []
  /\ App.activeRagStoreName (stateOf out) = None
  /\ App.searchSource (stateOf out) = GoogleSearch
  /\ hd_error (effects (traceOf out)) = Some (DeleteRagStore "fileSearchStores/s1").
Proof.
  destruct (C7_mode_switch_clears_before_fetching
              GoogleSearch (Ok ["What is new today?"]) docChat docChatKey)
    as [(H1 & H2 & H3 & _ & H5 & _) _];
    [intros H; vm_compute in H; discriminate
    |intros H; vm_compute in H; discriminate|].
  cbv zeta. split; [reflexivity|]. split; [exact H1|]. split; [exact H2|].
  split; [exact H3|]. apply H5; reflexivity.
Defined.

(** ** The upload modal *)

Lemma UploadModal_handleClose_during_upload
    (P : Type) (progress : P -> option UploadProgress) (onClose : P -> Act P unit)
    (v : UploadModal.View P) (p : UploadProgress) :
  progress (UploadModal.parent v) = Some p ->
  fire (UploadModal.handleClose P progress onClose) v = (Ok tt, v, []).
Proof.
  intros H. unfold fire, UploadModal.handleClose. rewrite H. reflexivity.
Qed.

(** C10: while an upload is in flight ([uploadProgress] non-null) the modal's
    [handleClose] does nothing: the page state is unchanged, so the modal stays
    open and the selected files are kept; with no upload in progress it
    clears the selected files and closes the modal. *)
Theorem C10_close_is_noop_during_upload
    (v u : AppPage.View) (p : UploadProgress) :
  App.uploadProgress (UploadModal.parent v) = Some p ->
  App.uploadProgress (UploadModal.parent u) = None ->
  fire AppPage.modalHandleClose v = (Ok tt, v, [])
  /\ UploadModal.files (UploadModal.modal (stateOf (fire AppPage.modalHandleClose u))) = []
  /\ App.isUploadModalOpen (UploadModal.parent (stateOf (fire AppPage.modalHandleClose u)))
     = false.
Proof.
  intros Hv Hu. split.
  - apply (UploadModal_handleClose_during_upload _ _ _ v p Hv).
  - unfold AppPage.modalHandleClose, fire, UploadModal.handleClose.
    rewrite Hu. split; reflexivity.
Qed.

Lemma C10_close_is_noop_during_upload_witness :
  fire AppPage.modalHandleClose modalUploading = (Ok tt, modalUploading, [])
  /\ UploadModal.files
       (UploadModal.modal (stateOf (fire AppPage.modalHandleClose modalOpen))) = []
  /\ App.isUploadModalOpen
       (UploadModal.parent (stateOf (fire AppPage.modalHandleClose modalOpen))) = false.
Proof.
  apply (C10_close_is_noop_during_upload modalUploading modalOpen
           {| current := 1; total := 4;
              message := Some "Generating embeddings...";
              fileName := Some "(1/2) a.pdf" |}); reflexivity.
Defined.

(** ** The handle invariant *)

(** C1 fails on src/unnamed/part_000: after a switch to web search, the
    file-search click only opens the modal, and the start sequence that
    follows commits its handle while the mode is still [GoogleSearch].  The
    state is reachable (also when the chat controls are fired only while the
    modal is closed), the index is live, the handle is non-null and the mode
    is not [FileSearch]. *)
Theorem C1_keyed_app_sets_handle_in_web_mode :
  exists s,
    AppKeyPage.runGhost uploadFromWebKeyed AppKey.initial false = Some (s, true)
    /\ AppKeyPage.runOverlay uploadFromWebKeyed AppKey.initial false = Some (s, true)
    /\ AppKeyPage.reachable s
    /\ AppKey.activeRagStoreName s = Some "fileSearchStores/s1"
    /\ AppKey.searchSource s = GoogleSearch
    /\ ~ AppKeyPage.handleInvariant s true.
Proof.
  eexists. split; [vm_compute; reflexivity|]. split; [vm_compute; reflexivity|].
  split; [|split; [|split]].
  - exists uploadFromWebKeyed. vm_compute. reflexivity.
  - reflexivity.
  - reflexivity.
  - intros [H _]. cbn in H. destruct H as [H _]; [discriminate|discriminate].
Qed.

(** The same clicks on src/App.tsx: [handleFileSearchClick] ends the web
    session first, and the handle is committed in [FileSearch] mode. *)
Lemma App_upload_from_web_keeps_invariant :
  exists v,
    AppPage.runGhost uploadFromWeb AppPage.initial false = Some (v, true)
    /\ App.activeRagStoreName (UploadModal.parent v) = Some "fileSearchStores/s1"
    /\ App.searchSource (UploadModal.parent v) = FileSearch
    /\ AppPage.handleInvariant v true.
Proof.
  eexists. split; [vm_compute; reflexivity|]. split; [reflexivity|]. split; [reflexivity|].
  unfold AppPage.handleInvariant. cbn. split; [auto|intros _; discriminate].
Qed.

(** ** src/App.tsx keeps the handle invariant under the overlay *)

Lemma AppPage_parent_remount (v : AppPage.View) :
  UploadModal.parent (AppPage.remount v) = UploadModal.parent v.
Proof. unfold AppPage.remount. destruct (AppPage.rendersChat v); reflexivity. Qed.

Lemma AppPage_parent_ofApp (h : App.State -> Act App.State unit) (v : AppPage.View) :
  UploadModal.parent (stateOf (fire (AppPage.ofApp h) v))
  = stateOf (fire h (UploadModal.parent v)).
Proof.
  unfold AppPage.ofApp, fire, UploadModal.liftParent, stateOf.
  destruct (h (UploadModal.parent v) (UploadModal.parent v) []) as [[r p] t].
  reflexivity.
Qed.

(** [handleUploadAndStartChat] catches what it awaits: it never throws. *)
Lemma App_upload_returns (files : list File) (o : UploadOracle) (s : App.State) :
  resultOf (fire (App.handleUploadAndStartChat files o) s) = Ok tt.
Proof.
  destruct files as [|f fs]; [reflexivity|].
  destruct (allStepsSucceed (List.length (f :: fs)) o) eqn:Hall.
  - destruct (App_upload_success (f :: fs) o s) as (h & qs & t & _ & _ & E & _);
      [discriminate|assumption|]. now rewrite E.
  - destruct (App_upload_failure (f :: fs) o s) as (e & t & E & _);
      [discriminate|assumption|]. now rewrite E.
Qed.

Lemma AppPage_parent_confirm (o : UploadOracle) (v : AppPage.View) :
  UploadModal.files (UploadModal.modal v) <> [] ->
  UploadModal.parent (stateOf (fire (AppPage.modalHandleConfirmUpload o) v))
  = stateOf (fire (App.handleUploadAndStartChat
                     (UploadModal.files (UploadModal.modal v)) o)
                  (UploadModal.parent v)).
Proof.
  intros Hne.
  pose proof (App_upload_returns (UploadModal.files (UploadModal.modal v)) o
                (UploadModal.parent v)) as Hr.
  unfold AppPage.modalHandleConfirmUpload, UploadModal.handleConfirmUpload, fire in *.
  destruct (Nat.eqb_spec (List.length (UploadModal.files (UploadModal.modal v))) 0)
    as [E0|E0]; [apply length_zero_iff_nil in E0; congruence|].
  unfold tryCatch, bind, UploadModal.liftParent, stateOf, resultOf in *.
  destruct (App.handleUploadAndStartChat _ o (UploadModal.parent v)
              (UploadModal.parent v) []) as [[r p] t].
  cbn in Hr. subst r. reflexivity.
Qed.

Lemma AppPage_step_keeps_invariant
    (e : AppPage.Event) (v v' : AppPage.View) (live : bool) :
  overlayInvariant (UploadModal.parent v) live ->
  AppPage.deliverable e v = true ->
  AppPage.step e v = Some v' ->
  overlayInvariant (UploadModal.parent v') (AppPage.liveAfter e v live).
Proof.
  intros HI Hd Hstep. unfold AppPage.step in Hstep.
  destruct (AppPage.enabled e v) eqn:En; [|discriminate].
  inversion Hstep; subst v'; clear Hstep.
  rewrite AppPage_parent_remount.
  destruct v as [s m].
  destruct e; cbn [AppPage.handler];
    try (rewrite AppPage_parent_ofApp; cbn [UploadModal.parent] in * ).
  - crush_invariant s live.
  - crush_invariant s live.
  - crush_invariant s live.
  - crush_invariant s live.
  - destruct reply; crush_invariant s live.
  - destruct source, fetched; crush_invariant s live.
  - destruct picked; exact HI.
  - exact HI.
  - assert (Hne : UploadModal.files m <> []).
    { cbn in En. apply andb_prop in En as [_ En].
      destruct (UploadModal.files m); [discriminate|discriminate]. }
    rewrite AppPage_parent_confirm by exact Hne.
    cbn [UploadModal.parent UploadModal.modal AppPage.liveAfter] in *.
    assert (Hopen : App.isUploadModalOpen s = true).
    { cbn in En. apply andb_prop in En as [En _]. apply andb_prop in En as [En _].
      unfold AppPage.rendersModal in En. apply andb_prop in En as [_ En]. exact En. }
    destruct (Nat.eqb_spec (List.length (UploadModal.files m)) 0) as [E0|E0];
      [apply length_zero_iff_nil in E0; congruence|].
    cbn [negb andb].
    destruct (allStepsSucceed (List.length (UploadModal.files m)) o) eqn:Hall.
    + destruct (App_upload_success (UploadModal.files m) o s Hne Hall)
        as (h & qs & t & _ & _ & E & _).
      rewrite E. unfold overlayInvariant in *. cbn.
      destruct HI as (H1 & H2 & H3). repeat split; auto; discriminate.
    + destruct (App_upload_failure (UploadModal.files m) o s Hne Hall)
        as (e & t & E & _).
      rewrite E. unfold overlayInvariant in *. cbn. exact HI.
  - unfold AppPage.modalHandleClose, UploadModal.handleClose, fire.
    cbn [UploadModal.parent].
    destruct (App.uploadProgress s) eqn:Eu; [exact HI|].
    crush_invariant s live.
  - destruct outcome; crush_invariant s live.
Qed.

(** Under the overlay every state src/App.tsx reaches satisfies the handle
    invariant: the handle is non-null exactly when the mode is [FileSearch]
    and an index is live. *)
Theorem App_handle_invariant_under_overlay
    (es : list AppPage.Event) (v : AppPage.View) (live : bool) :
  AppPage.runOverlay es AppPage.initial false = Some (v, live) ->
  AppPage.handleInvariant v live.
Proof.
  assert (Hgen : forall es v0 live0,
             overlayInvariant (UploadModal.parent v0) live0 ->
             AppPage.runOverlay es v0 live0 = Some (v, live) ->
             overlayInvariant (UploadModal.parent v) live).
  { clear es. induction es as [|e es IH]; intros v0 live0 HI Hrun; cbn in Hrun.
    - inversion Hrun; subst. exact HI.
    - destruct (AppPage.deliverable e v0) eqn:Hd; [|discriminate].
      destruct (AppPage.step e v0) as [v1|] eqn:Hs; [|discriminate].
      apply (IH v1 (AppPage.liveAfter e v0 live0)); [|exact Hrun].
      apply (AppPage_step_keeps_invariant e v0 v1 live0); assumption. }
  intros Hrun.
  assert (H0 : overlayInvariant (UploadModal.parent AppPage.initial) false).
  { unfold overlayInvariant. cbn. repeat split; try discriminate; intros H; congruence. }
  destruct (Hgen es AppPage.initial false H0 Hrun) as (H1 & H2 & H3).
  unfold AppPage.handleInvariant. split.
  - intros Hh. apply H2 in Hh. split; [apply H3|]; exact Hh.
  - intros [_ Hl]. apply H2. exact Hl.
Qed.

(** Without the overlay discipline the guard of [handleFileSearchClick] does
    not cover a mode switch fired while the modal is already open. *)
Remark App_switch_behind_open_modal :
  exists v,
    AppPage.runGhost switchBehindModal AppPage.initial false = Some (v, true)
    /\ App.activeRagStoreName (UploadModal.parent v) = Some "fileSearchStores/s1"
    /\ App.searchSource (UploadModal.parent v) = GoogleSearch
    /\ AppPage.runOverlay switchBehindModal AppPage.initial false = None.
Proof.
  eexists. split; [vm_compute; reflexivity|]. repeat split.
Qed.

(** * Further properties of the handlers *)

(** ** Queries, [handleSendMessage] *)

(** A query that is answered appends the user's message and the model's
    message, which carries the text and the grounding chunks of the answer;
    nothing else changes but [isQueryLoading], which ends [false]; the one
    remote call is [fileSearch] on the handle in [FileSearch] mode and
    [googleSearch] in [GoogleSearch] mode. *)
Theorem App_answered_query (msg : string) (result : QueryResult) (s : App.State) :
  queryIssued (App.searchSource s) (App.activeRagStoreName s) ->
  let out := fire (App.handleSendMessage msg (Ok result)) s in
  stateOf out =
    {| App.status := App.status s; App.searchSource := App.searchSource s;
       App.error := App.error s;
       App.isUploadModalOpen := App.isUploadModalOpen s;
       App.uploadProgress := App.uploadProgress s;
       App.activeRagStoreName := App.activeRagStoreName s;
       App.chatHistory :=
         App.chatHistory s
         ++ [userMessage msg;
             {| role := model; parts := [ {| text := resultText result |} ];
                groundingChunks := resultChunks result |}];
       App.isQueryLoading := false;
       App.exampleQuestions := App.exampleQuestions s;
       App.documentName := App.documentName s |}
  /\ effects (traceOf out) =
     [match App.searchSource s with
      | FileSearch => CallFileSearch (App.activeRagStoreName s) msg
      | GoogleSearch => CallGoogleSearch msg
      end].
Proof.
  intros H. cbv zeta. unfold fire, App.handleSendMessage. open_app s. cbn in H.
  destruct H as [H|H].
  - subst src. act_norm. rewrite <- app_assoc. split; reflexivity.
  - destruct ah as [[|c h]|]; cbn in H; try discriminate.
    destruct src; act_norm; rewrite <- app_assoc; split; reflexivity.
Qed.

Lemma App_answered_query_witness :
  App.chatHistory (stateOf (fire (App.handleSendMessage "pressure?" (Ok sampleReply)) docChat))
  = [userMessage "pressure?"; modelMessage sampleReply]
  /\ effects (traceOf (fire (App.handleSendMessage "pressure?" (Ok sampleReply)) docChat))
     = [CallFileSearch (Some "fileSearchStores/s1") "pressure?"].
Proof.
  destruct (App_answered_query "pressure?" sampleReply docChat) as [H1 H2];
    [right; vm_compute; reflexivity|].
  cbv zeta in H1, H2. rewrite H1, H2. split; vm_compute; reflexivity.
Defined.

(** Whatever the service answers, [handleSendMessage] only ever adds to the
    end of the transcript, at most two messages. *)
Theorem App_transcript_append_only
    (msg : string) (reply : Result QueryResult) (s : App.State) :
  exists added,
    App.chatHistory (stateOf (fire (App.handleSendMessage msg reply) s))
    = App.chatHistory s ++ added
    /\ List.length added <= 2.
Proof.
  unfold fire, App.handleSendMessage. open_app s.
  destruct src, ah as [[|c h]|], reply as [res|e]; act_norm;
    try (exists []; rewrite app_nil_r; split; [reflexivity|cbn; lia]);
    rewrite <- app_assoc; eexists; (split; [reflexivity|cbn; lia]).
Qed.

(** ** Switching the mode, [handleSwitchSource] *)

(** Asking for the mode the application is already in does nothing at all. *)
Theorem App_switch_to_same_mode_is_noop
    (fetched : Result (list string)) (s : App.State) (k : AppKey.State) :
  fire (App.handleSwitchSource (App.searchSource s) fetched) s = (Ok tt, s, [])
  /\ fire (AppKey.handleSwitchSource (AppKey.searchSource k) fetched) k = (Ok tt, k, []).
Proof.
  unfold fire, App.handleSwitchSource, AppKey.handleSwitchSource.
  destruct (App.searchSource s), (AppKey.searchSource k); split; reflexivity.
Qed.

(** A switch never raises the error screen: the status after it is
    [Chatting] and the error cell is untouched, also when the question fetch
    fails, which is only logged and leaves no suggested questions;
    [isQueryLoading] is [false] after a switch to [GoogleSearch]; a switch to
    [FileSearch] fetches nothing. *)
Theorem App_switch_fetch_failure_is_only_logged
    (source : SearchSource) (fetched : Result (list string)) (s : App.State) :
  source <> App.searchSource s ->
  let out := fire (App.handleSwitchSource source fetched) s in
  App.status (stateOf out) = Chatting
  /\ App.error (stateOf out) = App.error s
  /\ App.isUploadModalOpen (stateOf out) = App.isUploadModalOpen s
  /\ (source = GoogleSearch -> App.isQueryLoading (stateOf out) = false)
  /\ (source = GoogleSearch -> isOk fetched = false ->
      App.exampleQuestions (stateOf out) = []
      /\ In (ConsoleError "Failed to get Google Search questions")
            (effects (traceOf out)))
  /\ (source = FileSearch ->
      ~ In GenerateGoogleSearchQuestions (effects (traceOf out))
      /\ App.isQueryLoading (stateOf out) = App.isQueryLoading s).
Proof.
  intros Hs. cbv zeta. unfold fire, App.handleSwitchSource, App.handleEndChat.
  open_app s. cbn in Hs.
  destruct source, src; try congruence;
    destruct ah as [[|c h]|]; destruct fetched as [qs|e]; act_norm; cbn;
    repeat match goal with |- _ /\ _ => split end;
    try reflexivity; try (intros; discriminate); try (intros; congruence);
    try (intros _ _; split; [reflexivity|tauto]);
    try (intros _; split; [|reflexivity]; intros F;
         repeat destruct F as [F|F]; try discriminate; contradiction).
Qed.

Lemma App_switch_fetch_failure_is_only_logged_witness :
  let out := fire (App.handleSwitchSource GoogleSearch (Threw (ErrorObj "503"))) docChat in
  App.status (stateOf out) = Chatting
  /\ App.exampleQuestions (stateOf out) = []
  /\ App.isQueryLoading (stateOf out) = false.
Proof.
  destruct (App_switch_fetch_failure_is_only_logged
              GoogleSearch (Threw (ErrorObj "503")) docChat)
    as (H1 & _ & _ & H4 & H5 & _);
    [intros H; vm_compute in H; discriminate|].
  destruct (H5 eq_refl eq_refl) as [H5' _]. specialize (H4 eq_refl).
  cbv zeta. split; [exact H1|]. split; [exact H5' | exact H4].
Defined.

(** ** Ending and restarting, [handleEndChat], [handleFileSearchClick],
       [handleUnload] *)

(** Ending an ended session changes nothing and asks the service for
    nothing: the deletion is requested once. *)
Theorem App_end_chat_twice (s : App.State) (k : AppKey.State) :
  fire App.handleEndChat (stateOf (fire App.handleEndChat s))
  = (Ok tt, stateOf (fire App.handleEndChat s), [])
  /\ fire AppKey.handleEndChat (stateOf (fire AppKey.handleEndChat k))
     = (Ok tt, stateOf (fire AppKey.handleEndChat k), []).
Proof.
  rewrite App_handleEndChat_state, AppKey_handleEndChat_state.
  split; reflexivity.
Qed.

(** [handleFileSearchClick] always leaves the modal open and the mode
    [FileSearch].  With a usable handle or in [GoogleSearch] mode it ends the
    session first (handle, transcript, questions and label cleared, the
    handle's deletion requested); otherwise it changes nothing but the modal
    flag and calls nothing. *)
Theorem App_file_search_click (s : App.State) :
  let out := fire App.handleFileSearchClick s in
  App.isUploadModalOpen (stateOf out) = true
  /\ App.searchSource (stateOf out) = FileSearch
  /\ (if truthy (App.activeRagStoreName s)
         || SearchSource_eqb (App.searchSource s) GoogleSearch
      then App.activeRagStoreName (stateOf out) = None
           /\ App.chatHistory (stateOf out) = []
           /\ App.exampleQuestions (stateOf out) = []
           /\ App.documentName (stateOf out) = ""
           /\ effects (traceOf out) = effects (traceOf (fire App.handleEndChat s))
      else stateOf out =
             {| App.status := App.status s; App.searchSource := App.searchSource s;
                App.error := App.error s; App.isUploadModalOpen := true;
                App.uploadProgress := App.uploadProgress s;
                App.activeRagStoreName := App.activeRagStoreName s;
                App.chatHistory := App.chatHistory s;
                App.isQueryLoading := App.isQueryLoading s;
                App.exampleQuestions := App.exampleQuestions s;
                App.documentName := App.documentName s |}
           /\ traceOf out = []).
Proof.
  cbv zeta. unfold fire, App.handleFileSearchClick, App.handleEndChat. open_app s.
  destruct src, ah as [[|c h]|]; act_norm; cbn; repeat split; reflexivity.
Qed.



(** ** The start sequence, continued *)

(** An empty file list is ignored: no state change and no call, in both
    variants of [App] (the keyed one with a key selected). *)
Theorem App_upload_nothing_is_noop (o : UploadOracle) (s : App.State) (k : AppKey.State) :
  AppKey.isApiKeySelected k = true ->
  fire (App.handleUploadAndStartChat [] o) s = (Ok tt, s, [])
  /\ fire (AppKey.handleUploadAndStartChat [] o) k = (Ok tt, k, []).
Proof.
  intros Hk. split; [reflexivity|].
  unfold fire, AppKey.handleUploadAndStartChat. rewrite Hk. reflexivity.
Qed.

Lemma App_upload_nothing_is_noop_witness :
  fire (App.handleUploadAndStartChat [] goodOracle) idleApp = (Ok tt, idleApp, [])
  /\ fire (AppKey.handleUploadAndStartChat [] goodOracle) idleAppKey
     = (Ok tt, idleAppKey, []).
Proof.
  apply (App_upload_nothing_is_noop goodOracle idleApp idleAppKey). reflexivity.
Defined.

(** A start sequence in which every step succeeds calls the service in this
    order: [createRagStore] with the name [chat-session-<Date.now()>], one
    [uploadToRagStore] per file, in the order of the list and all on the
    handle that was created, then [generateExampleQuestions] on that handle;
    the half-second pause comes last. *)
Theorem App_start_sequence_calls_in_order
    (files : list File) (o : UploadOracle) (s : App.State) :
  files <> [] ->
  allStepsSucceed (List.length files) o = true ->
  exists h,
    created o = Ok h
    /\ effects (traceOf (fire (App.handleUploadAndStartChat files o) s))
       = CreateRagStore ("chat-session-" ++ timeToString (now o))
         :: map (UploadToRagStore h) files
            ++ [GenerateExampleQuestions h; SetTimeout 500].
Proof.
  intros Hne Hall.
  destruct (App_upload_success files o s Hne Hall) as (h & qs & t & Hc & _ & E & Et).
  exists h. split; [exact Hc|]. rewrite E. cbn [traceOf snd]. rewrite Et.
  unfold startSequenceCalls. rewrite Hc.
  unfold allStepsSucceed in Hall.
  apply andb_prop in Hall as [Hall _]. apply andb_prop in Hall as [_ Hu].
  fold (allUploadsOk (uploaded o) 0 (List.length files)) in Hu.
  rewrite Hu, uploadsAttempted_all_ok by exact Hu.
  cbn. rewrite <- app_assoc. reflexivity.
Qed.

Lemma App_start_sequence_calls_in_order_witness :
  effects (traceOf (fire (App.handleUploadAndStartChat [manualA; manualB] goodOracle) idleApp))
  = [CreateRagStore "chat-session-1730419200000";
     UploadToRagStore "fileSearchStores/s1" manualA;
     UploadToRagStore "fileSearchStores/s1" manualB;
     GenerateExampleQuestions "fileSearchStores/s1";
     SetTimeout 500].
Proof.
  destruct (App_start_sequence_calls_in_order [manualA; manualB] goodOracle idleApp)
    as (h & Hc & H); [discriminate | vm_compute; reflexivity | ].
  rewrite H. vm_compute in Hc. inversion Hc. subst h. vm_compute. reflexivity.
Defined.

(** However the start sequence ends, it leaves no progress record behind;
    fired from the chat view (a render whose status is not [Error]) it ends
    in the [Chatting] status also when a step failed: the [finally] block
    overwrites the [Error] status that [handleError] has just set, while the
    error text stays stored.  The mode is never touched; the suggested
    questions change, and the modal closes, on success only. *)
Theorem App_start_sequence_ends_in_chat
    (files : list File) (o : UploadOracle) (s : App.State) :
  files <> [] ->
  App.status s <> Error ->
  let s' := stateOf (fire (App.handleUploadAndStartChat files o) s) in
  App.uploadProgress s' = None
  /\ App.status s' = Chatting
  /\ App.searchSource s' = App.searchSource s
  /\ App.isQueryLoading s' = App.isQueryLoading s
  /\ (if allStepsSucceed (List.length files) o
      then App.isUploadModalOpen s' = false
           /\ questions o = Ok (App.exampleQuestions s')
           /\ App.error s' = App.error s
      else App.isUploadModalOpen s' = App.isUploadModalOpen s
           /\ App.exampleQuestions s' = App.exampleQuestions s
           /\ exists e, App.error s' = Some (errorText "Failed to start chat session" e)).
Proof.
  intros Hne Hst. cbv zeta.
  destruct (allStepsSucceed (List.length files) o) eqn:Hall.
  - destruct (App_upload_success files o s Hne Hall) as (h & qs & t & _ & Hq & E & _).
    rewrite E. cbn. repeat split; try reflexivity. exact Hq.
  - destruct (App_upload_failure files o s Hne Hall) as (e & t & E & _).
    rewrite E. cbn.
    destruct (App.status s); try congruence; cbn;
      (repeat split; try reflexivity; exists e; reflexivity).
Qed.

Lemma App_start_sequence_ends_in_chat_witness :
  let s' := stateOf (fire (App.handleUploadAndStartChat [manualA; manualB; manualC]
                             secondUploadFails) idleApp) in
  App.status s' = Chatting /\ App.uploadProgress s' = None
  /\ App.error s' = Some "Failed to start chat session: quota exceeded".
Proof.
  destruct (App_start_sequence_ends_in_chat [manualA; manualB; manualC]
              secondUploadFails idleApp) as (H1 & H2 & _);
    [discriminate | intros H; vm_compute in H; discriminate | ].
  cbv zeta in *. split; [exact H2|]. split; [exact H1|]. vm_compute. reflexivity.
Defined.

(** The trace of the upload loop: one stamped call per attempted file, each
    issued under the progress record of its index. *)
Lemma App_uploadLoop_stamps h len uploaded rest :
  forall i s t,
  exists r p stamps,
    App.uploadLoop h len i rest uploaded s t = (r, App_withProgress p s, t ++ stamps)
    /\ forall e st, In (e, st) stamps ->
         exists j f,
           nth_error rest j = Some f
           /\ e = UploadToRagStore h f
           /\ st = App_withProgress
                     (Some {| current := i + j + 1;
                              total := match App.uploadProgress s with
                                       | Some p0 => total p0
                                       | None => 0
                                       end;
                              message := Some "Generating embeddings...";
                              fileName := Some (progressFileName (i + j) len f) |})
                     s.
Proof.
  induction rest as [|f rest IH]; intros i s t.
  - exists (Ok tt), (App.uploadProgress s), []. split.
    + cbn. rewrite app_nil_r. destruct s; reflexivity.
    + intros e st [].
  - cbn [App.uploadLoop]. unfold bind at 1. cbn [App.setUploadProgressWith update].
    unfold bind at 1. unfold await at 1.
    set (s1 := {| App.status := App.status s; App.searchSource := App.searchSource s;
                  App.error := App.error s;
                  App.isUploadModalOpen := App.isUploadModalOpen s;
                  App.uploadProgress := loopProgress i len f (App.uploadProgress s);
                  App.activeRagStoreName := App.activeRagStoreName s;
                  App.chatHistory := App.chatHistory s;
                  App.isQueryLoading := App.isQueryLoading s;
                  App.exampleQuestions := App.exampleQuestions s;
                  App.documentName := App.documentName s |}).
    assert (Hs1 : s1 = App_withProgress
                         (Some {| current := i + 0 + 1;
                                  total := match App.uploadProgress s with
                                           | Some p0 => total p0
                                           | None => 0
                                           end;
                                  message := Some "Generating embeddings...";
                                  fileName := Some (progressFileName (i + 0) len f) |})
                         s).
    { unfold s1, App_withProgress, loopProgress. rewrite Nat.add_0_r. reflexivity. }
    destruct (uploaded i) as [[]|e] eqn:Hu.
    + destruct (IH (i + 1) s1 (t ++ [(UploadToRagStore h f, s1)]))
        as (r & p & stamps & Heq & Hst).
      exists r, p, ((UploadToRagStore h f, s1) :: stamps).
      split.
      * rewrite Heq. rewrite <- app_assoc. reflexivity.
      * intros e0 st [Hin|Hin].
        -- inversion Hin; subst e0 st. exists 0, f. repeat split. exact Hs1.
        -- destruct (Hst e0 st Hin) as (j & f' & Hn & He & Hs).
           exists (S j), f'. split; [exact Hn|]. split; [exact He|].
           rewrite Hs. unfold s1, App_withProgress, loopProgress. cbn.
           replace (i + 1 + j) with (i + S j) by lia. reflexivity.
    + exists (Threw e), (loopProgress i len f (App.uploadProgress s)),
        [(UploadToRagStore h f, s1)].
      split; [reflexivity|].
      intros e0 st [Hin|[]]. inversion Hin; subst e0 st.
      exists 0, f. repeat split. exact Hs1.
Qed.

(** While the start sequence runs, each [uploadToRagStore] call is issued
    for a file of the list, on the handle that was created, with the status
    [Uploading] and the progress record of that file: step [j + 1] of
    [n + 2], labelled [(j+1/n) name]. *)
Theorem App_progress_at_each_upload
    (files : list File) (o : UploadOracle) (s : App.State)
    (h : string) (f : File) (stamp : App.State) :
  In (UploadToRagStore h f, stamp)
     (traceOf (fire (App.handleUploadAndStartChat files o) s)) ->
  created o = Ok h
  /\ App.status stamp = Uploading
  /\ exists j,
       nth_error files j = Some f
       /\ App.uploadProgress stamp = Some (progressAtUpload j (List.length files) f).
Proof.
  unfold App.handleUploadAndStartChat, fire.
  destruct (Nat.eqb_spec (List.length files) 0) as [E0|E0]; [intros []|].
  open_app s.
  destruct (created o) as [h0|e] eqn:Ec.
  2:{ destruct st; act_norm; intros Hin; split_trace Hin; inversion Hin. }
  act_norm.
  match goal with |- context [App.uploadLoop h0 ?len 0 files ?up ?s1 ?t1] =>
    destruct (App_uploadLoop_stamps h0 len up files 0 s1 t1)
      as (r & p & stamps & Heq & Hst) end.
  rewrite Heq.
  assert (Hstamp : In (UploadToRagStore h f, stamp) stamps ->
            Ok h0 = Ok h /\ App.status stamp = Uploading
            /\ exists j, nth_error files j = Some f
                 /\ App.uploadProgress stamp
                    = Some (progressAtUpload j (List.length files) f)).
  { intros Hin. destruct (Hst _ _ Hin) as (j & f' & Hn & He & Hs).
    inversion He; subst h0 f'. rewrite Hs. cbn.
    split; [reflexivity|]. split; [reflexivity|]. exists j. split; [exact Hn|].
    reflexivity. }
  destruct r as [[]|e]; [destruct (questions o) as [qs|e]|];
    destruct st; act_norm; intros Hin; split_trace Hin;
    try (inversion Hin; fail); apply Hstamp; exact Hin.
Qed.

Lemma App_progress_at_each_upload_witness :
  exists st,
    In (UploadToRagStore "fileSearchStores/s1" manualB, st)
       (traceOf (fire (App.handleUploadAndStartChat [manualA; manualB] goodOracle) idleApp))
    /\ App.status st = Uploading
    /\ App.uploadProgress st
       = Some {| current := 2; total := 4;
                 message := Some "Generating embeddings...";
                 fileName := Some "(2/2) b.pdf" |}.
Proof.
  eexists. split; [vm_compute; right; right; left; reflexivity|].
  match goal with |- App.status ?st = _ /\ _ =>
    destruct (App_progress_at_each_upload [manualA; manualB] goodOracle idleApp
                "fileSearchStores/s1" manualB st) as (_ & Hs & _)
  end; [vm_compute; right; right; left; reflexivity|].
  split; [exact Hs|]. vm_compute. reflexivity.
Defined.

(** ** The API key, src/unnamed/part_000 *)

Lemma prefix_append (s t : string) : prefix s (s ++ t) = true.
Proof.
  induction s as [|c s IH]; [destruct t; reflexivity|].
  cbn. destruct (ascii_dec c c) as [_|N]; [exact IH|congruence].
Qed.

(** [includes] finds every occurrence. *)
Lemma includes_occurrence (pre sub post : string) :
  includes (pre ++ sub ++ post) sub = true.
Proof.
  induction pre as [|c pre IH].
  - cbn [String.append]. destruct (sub ++ post)%string eqn:E.
    + cbn. destruct sub; [reflexivity|discriminate].
    + cbn [includes]. rewrite <- E, prefix_append. reflexivity.
  - cbn [String.append includes]. rewrite IH.
    destruct (prefix sub (String c (pre ++ sub ++ post))); reflexivity.
Qed.

(** Without a selected API key the start sequence does not start: the only
    change is the message asking for a key, and nothing is called, whatever
    the files (the key is tested before the empty list is). *)
Theorem AppKey_upload_needs_key
    (files : list File) (o : UploadOracle) (s : AppKey.State) :
  AppKey.isApiKeySelected s = false ->
  let out := fire (AppKey.handleUploadAndStartChat files o) s in
  traceOf out = []
  /\ AppKey.apiKeyError (stateOf out) = Some "Please select your Gemini API Key first."
  /\ AppKey.status (stateOf out) = AppKey.status s
  /\ AppKey.activeRagStoreName (stateOf out) = AppKey.activeRagStoreName s
  /\ AppKey.chatHistory (stateOf out) = AppKey.chatHistory s
  /\ AppKey.documentName (stateOf out) = AppKey.documentName s
  /\ AppKey.exampleQuestions (stateOf out) = AppKey.exampleQuestions s
  /\ AppKey.uploadProgress (stateOf out) = AppKey.uploadProgress s
  /\ AppKey.isUploadModalOpen (stateOf out) = AppKey.isUploadModalOpen s
  /\ AppKey.error (stateOf out) = AppKey.error s.
Proof.
  intros Hk. cbv zeta. rewrite (AppKey_upload_without_key files o s Hk).
  cbn. repeat split; reflexivity.
Qed.

Lemma AppKey_upload_needs_key_witness :
  traceOf (fire (AppKey.handleUploadAndStartChat [manualA] goodOracle) AppKey.initial) = []
  /\ AppKey.apiKeyError
       (stateOf (fire (AppKey.handleUploadAndStartChat [manualA] goodOracle) AppKey.initial))
     = Some "Please select your Gemini API Key first.".
Proof.
  destruct (AppKey_upload_needs_key [manualA] goodOracle AppKey.initial)
    as (H1 & H2 & _); [reflexivity|].
  split; [exact H1 | exact H2].
Defined.

(** The handler of the other theorems is the one with the ASCII
    lower-casing. *)
Lemma AppKey_upload_ascii_instance :
  AppKey.handleUploadAndStartChatWith toLowerCase = AppKey.handleUploadAndStartChat
  /\ AppKey.isApiKeyFailureWith toLowerCase = AppKey.isApiKeyFailure.
Proof. split; reflexivity. Qed.

(** Whatever [toLowerCase] does: when index creation fails and the
    lower-cased text of the failure contains "api key not valid" or
    "requested entity was not found", the start sequence stops after that
    one call, withdraws the key selection and stores the message asking for
    another key; it does not go through [handleError]: the error cell is
    untouched, nothing is written to the console, and, fired from the chat
    view, the status ends [Chatting]. *)
Theorem AppKey_rejected_key_withdraws_selection
    (lowerCase : string -> string)
    (files : list File) (o : UploadOracle) (s : AppKey.State)
    (e : Thrown) (needle pre post : string) :
  AppKey.isApiKeySelected s = true ->
  files <> [] ->
  AppKey.status s <> Error ->
  created o = Threw e ->
  needle = "api key not valid" \/ needle = "requested entity was not found" ->
  lowerCase (thrownText e) = (pre ++ needle ++ post)%string ->
  let out := fire (AppKey.handleUploadAndStartChatWith lowerCase files o) s in
  effects (traceOf out) = [CreateRagStore ("chat-session-" ++ timeToString (now o))]
  /\ AppKey.isApiKeySelected (stateOf out) = false
  /\ AppKey.apiKeyError (stateOf out)
     = Some "The selected API key is invalid. Please select a different one and try again."
  /\ AppKey.error (stateOf out) = AppKey.error s
  /\ AppKey.status (stateOf out) = Chatting
  /\ AppKey.uploadProgress (stateOf out) = None
  /\ AppKey.activeRagStoreName (stateOf out) = AppKey.activeRagStoreName s
  /\ AppKey.chatHistory (stateOf out) = AppKey.chatHistory s.
Proof.
  intros Hk Hne Hst Hc Hneedle Hmsg. cbv zeta.
  assert (Hf : AppKey.isApiKeyFailureWith lowerCase e = true).
  { unfold AppKey.isApiKeyFailureWith. rewrite Hmsg.
    destruct Hneedle as [-> | ->]; rewrite includes_occurrence;
      [reflexivity | apply orb_true_r]. }
  unfold AppKey.handleUploadAndStartChatWith, fire. rewrite Hk.
  destruct (Nat.eqb_spec (List.length files) 0) as [E0|E0];
    [apply length_zero_iff_nil in E0; congruence|].
  rewrite Hc. open_appkey s. cbn in Hst, Hk. subst.
  act_norm. rewrite Hf.
  destruct st; try congruence; act_norm; cbn; repeat split; reflexivity.
Qed.

Lemma AppKey_rejected_key_withdraws_selection_witness :
  let out := fire (AppKey.handleUploadAndStartChatWith toLowerCase [manualA] keyRejected)
                  idleAppKey in
  AppKey.isApiKeySelected idleAppKey = true
  /\ AppKey.isApiKeySelected (stateOf out) = false
  /\ AppKey.status (stateOf out) = Chatting
  /\ AppKey.error (stateOf out) = None.
Proof.
  destruct (AppKey_rejected_key_withdraws_selection
              toLowerCase [manualA] keyRejected idleAppKey
              (ErrorObj "API key not valid. Please pass a valid API key.")
              "api key not valid" "" ". please pass a valid api key.")
    as (_ & H2 & _ & H4 & H5 & _);
    [reflexivity | discriminate | discriminate | reflexivity
    | left; reflexivity | reflexivity | ].
  cbv zeta in *. split; [reflexivity|]. split; [exact H2|]. split; [exact H5|].
  rewrite H4. reflexivity.
Defined.

(** On mount the status is set before the key check settles: the outcome
    is that of [checkApiKey] followed by [setStatus(Chatting)], the calls are
    the same, and [initialize] is called under the status [Chatting]. *)
Lemma AppKey_mount_result (w : AiStudio) (s : AppKey.State) :
  stateOf (fire (AppKey.onMount w) s)
  = stateOf (fire (fun _ => AppKey.setStatus Chatting)
                  (stateOf (fire (AppKey.checkApiKey w) s)))
  /\ effects (traceOf (fire (AppKey.onMount w) s))
     = effects (traceOf (fire (AppKey.checkApiKey w) s))
  /\ forall stamp, In (Initialize, stamp) (traceOf (fire (AppKey.onMount w) s)) ->
                   AppKey.status stamp = Chatting.
Proof.
  unfold fire, AppKey.onMount, AppKey.checkApiKey. open_appkey s.
  destruct (hasSelectedApiKey w) as [[[|]|e]|]; act_norm;
    (split; [reflexivity|]); (split; [reflexivity|]);
    intros stamp Hin; in_trace Hin; reflexivity.
Qed.

(** [checkApiKey] touches the two key cells only.  [isApiKeySelected]
    becomes what [hasSelectedApiKey] answered, [false] when that call
    failed, and stays when [window.aistudio] lacks the method; the key
    message is cleared, and the service initialised, exactly on the answer
    [true]. *)
Theorem AppKey_check_api_key (w : AiStudio) (s : AppKey.State) :
  let out := fire (AppKey.checkApiKey w) s in
  stateOf out =
    {| AppKey.status := AppKey.status s; AppKey.searchSource := AppKey.searchSource s;
       AppKey.isApiKeySelected :=
         match hasSelectedApiKey w with
         | None => AppKey.isApiKeySelected s
         | Some (Ok answer) => answer
         | Some (Threw _) => false
         end;
       AppKey.apiKeyError :=
         match hasSelectedApiKey w with
         | Some (Ok true) => None
         | _ => AppKey.apiKeyError s
         end;
       AppKey.error := AppKey.error s;
       AppKey.isUploadModalOpen := AppKey.isUploadModalOpen s;
       AppKey.uploadProgress := AppKey.uploadProgress s;
       AppKey.activeRagStoreName := AppKey.activeRagStoreName s;
       AppKey.chatHistory := AppKey.chatHistory s;
       AppKey.isQueryLoading := AppKey.isQueryLoading s;
       AppKey.exampleQuestions := AppKey.exampleQuestions s;
       AppKey.documentName := AppKey.documentName s |}
  /\ effects (traceOf out) =
     match hasSelectedApiKey w with
     | None => []
     | Some (Ok true) => [HasSelectedApiKey; Initialize]
     | Some (Ok false) => [HasSelectedApiKey]
     | Some (Threw _) => [HasSelectedApiKey; ConsoleError "Error checking for API key:"]
     end.
Proof.
  cbv zeta. unfold fire, AppKey.checkApiKey. open_appkey s.
  destruct (hasSelectedApiKey w) as [[[|]|e]|]; act_norm; split; reflexivity.
Qed.

(** A switch to [GoogleSearch] without a selected key still ends the
    session and changes the mode, but fetches no questions: the only effect
    is the teardown's, the key message is set, and [isQueryLoading] is left
    alone. *)
Theorem AppKey_switch_to_web_without_key
    (fetched : Result (list string)) (s : AppKey.State) :
  AppKey.searchSource s = FileSearch ->
  AppKey.isApiKeySelected s = false ->
  let out := fire (AppKey.handleSwitchSource GoogleSearch fetched) s in
  AppKey.searchSource (stateOf out) = GoogleSearch
  /\ AppKey.activeRagStoreName (stateOf out) = None
  /\ AppKey.chatHistory (stateOf out) = []
  /\ AppKey.exampleQuestions (stateOf out) = []
  /\ AppKey.apiKeyError (stateOf out)
     = Some "Please select your Gemini API Key to use Google Search."
  /\ AppKey.isQueryLoading (stateOf out) = AppKey.isQueryLoading s
  /\ effects (traceOf out) = effects (traceOf (fire AppKey.handleEndChat s)).
Proof.
  intros Hs Hk. cbv zeta.
  unfold fire, AppKey.handleSwitchSource, AppKey.handleEndChat.
  open_appkey s. cbn in Hs, Hk. subst.
  destruct ah as [[|c h]|]; act_norm; cbn; repeat split; reflexivity.
Qed.

Lemma AppKey_switch_to_web_without_key_witness :
  let out := fire (AppKey.handleSwitchSource GoogleSearch (Ok ["What is new today?"]))
                  AppKey.initial in
  AppKey.searchSource (stateOf out) = GoogleSearch
  /\ AppKey.exampleQuestions (stateOf out) = []
  /\ effects (traceOf out) = [].
Proof.
  destruct (AppKey_switch_to_web_without_key (Ok ["What is new today?"]) AppKey.initial)
    as (H1 & _ & _ & H4 & _ & _ & H7); [reflexivity | reflexivity | ].
  cbv zeta in *. split; [exact H1|]. split; [exact H4|]. rewrite H7. reflexivity.
Defined.

(** [handleSelectKey]: without [openSelectKey] nothing changes and the user
    is alerted; when opening the dialog fails nothing changes, the failure is
    logged and the key is not re-checked; when it succeeds the outcome is
    that of [checkApiKey]. *)
Theorem AppKey_select_key (w : AiStudio) (s : AppKey.State) :
  let out := fire (AppKey.handleSelectKey w) s in
  match openSelectKey w with
  | None =>
      stateOf out = s
      /\ effects (traceOf out)
         = [ConsoleLog "window.aistudio.openSelectKey() not available.";
            Alert "API key selection is not available in this environment."]
  | Some (Threw _) =>
      stateOf out = s
      /\ effects (traceOf out)
         = [OpenSelectKey; ConsoleError "Failed to open API key selection dialog"]
  | Some (Ok _) =>
      stateOf out = stateOf (fire (AppKey.checkApiKey w) s)
      /\ effects (traceOf out)
         = OpenSelectKey :: effects (traceOf (fire (AppKey.checkApiKey w) s))
  end.
Proof.
  cbv zeta. unfold fire, AppKey.handleSelectKey, AppKey.checkApiKey. open_appkey s.
  destruct (openSelectKey w) as [[[]|e]|];
    [destruct (hasSelectedApiKey w) as [[[|]|e]|]| |];
    act_norm; split; reflexivity.
Qed.

(** ** The upload modal, continued *)

Lemma filterByIndex_passed (l : list File) :
  forall k target, target < k ->
    UploadModal.filterByIndex (fun index => negb (index =? target)%nat) k l = l.
Proof.
  induction l as [|f l IH]; intros k target H; [reflexivity|].
  cbn [UploadModal.filterByIndex].
  destruct (Nat.eqb_spec k target) as [E|E]; [lia|]. cbn [negb].
  f_equal. apply IH. lia.
Qed.

Lemma filterByIndex_removeAt (l : list File) :
  forall k target, k <= target ->
    UploadModal.filterByIndex (fun index => negb (index =? target)%nat) k l
    = UploadModal.removeAt (target - k) l.
Proof.
  induction l as [|f l IH]; intros k target H.
  - destruct (target - k); reflexivity.
  - cbn [UploadModal.filterByIndex].
    destruct (Nat.eqb_spec k target) as [E|E]; cbn [negb].
    + subst k. rewrite Nat.sub_diag. cbn [UploadModal.removeAt].
      apply filterByIndex_passed. lia.
    + replace (target - k) with (S (target - S k)) by lia.
      cbn [UploadModal.removeAt]. f_equal. apply IH. lia.
Qed.

Lemma removeAt_firstn_skipn (l : list File) :
  forall i, UploadModal.removeAt i l = firstn i l ++ skipn (S i) l.
Proof.
  induction l as [|f l IH]; intros i; [destruct i; reflexivity|].
  destruct i as [|i]; [reflexivity|]. cbn [UploadModal.removeAt firstn skipn].
  rewrite IH. reflexivity.
Qed.

(** [handleRemoveFile] sets the selection to the JavaScript filter
    [prevFiles.filter((_, index) => index !== indexToRemove)]: the files
    before the index followed by the files after it.  An index past the end
    removes nothing, an index inside removes one file; the parent and the
    other cells of the modal are untouched. *)
Theorem UploadModal_remove_file (P : Type) (i : nat) (v : UploadModal.View P) :
  let v' := stateOf (fire (UploadModal.handleRemoveFile P i) v) in
  let fs := UploadModal.files (UploadModal.modal v) in
  let fs' := UploadModal.files (UploadModal.modal v') in
  fs' = UploadModal.filterByIndex (fun index => negb (index =? i)%nat) 0 fs
  /\ fs' = firstn i fs ++ skipn (S i) fs
  /\ (List.length fs <= i -> fs' = fs)
  /\ (i < List.length fs -> S (List.length fs') = List.length fs)
  /\ UploadModal.parent v' = UploadModal.parent v
  /\ UploadModal.isDragging (UploadModal.modal v')
     = UploadModal.isDragging (UploadModal.modal v)
  /\ UploadModal.loadingSample (UploadModal.modal v')
     = UploadModal.loadingSample (UploadModal.modal v).
Proof.
  cbv zeta. destruct v as [p [fs dr ls]]. cbn.
  split; [|split; [|split; [|split]]].
  - rewrite (filterByIndex_removeAt fs 0 i) by lia. now rewrite Nat.sub_0_r.
  - apply removeAt_firstn_skipn.
  - intros H. rewrite removeAt_firstn_skipn, firstn_all2 by exact H.
    rewrite skipn_all2 by lia. apply app_nil_r.
  - intros H. rewrite removeAt_firstn_skipn, length_app, length_firstn, length_skipn. lia.
  - repeat split; reflexivity.
Qed.

(** Picking files appends them to the selection, in order, after those
    already picked; removing a file by its index right after picking it
    gives back the selection as it was. *)
Theorem UploadModal_pick_then_remove
    (P : Type) (f : File) (v : UploadModal.View P) :
  let picked := stateOf (fire (UploadModal.handleFileChange P (Some [f])) v) in
  UploadModal.files (UploadModal.modal picked)
  = UploadModal.files (UploadModal.modal v) ++ [f]
  /\ stateOf (fire (UploadModal.handleRemoveFile P
                      (List.length (UploadModal.files (UploadModal.modal v))))
                   picked)
     = v.
Proof.
  cbv zeta. destruct v as [p [fs dr ls]]. cbn. split; [reflexivity|].
  rewrite removeAt_firstn_skipn, firstn_app, firstn_all, Nat.sub_diag.
  rewrite skipn_app, skipn_all2 by lia.
  replace (S (List.length fs) - List.length fs) with 1 by lia.
  cbn. rewrite !app_nil_r. reflexivity.
Qed.

(** A drop ends the dragging state and appends the dropped files; a change
    event or a drop without files leaves the selection as it is; neither
    touches the parent. *)
Theorem UploadModal_drop (P : Type) (dropped : option (list File))
    (v : UploadModal.View P) :
  let v' := stateOf (fire (UploadModal.handleDrop P dropped) v) in
  UploadModal.isDragging (UploadModal.modal v') = false
  /\ UploadModal.files (UploadModal.modal v')
     = UploadModal.files (UploadModal.modal v)
       ++ match dropped with Some fs => fs | None => [] end
  /\ UploadModal.parent v' = UploadModal.parent v
  /\ stateOf (fire (UploadModal.handleFileChange P None) v) = v.
Proof.
  cbv zeta. destruct v as [p [fs dr ls]].
  destruct dropped; cbn; rewrite ?app_nil_r; repeat split; reflexivity.
Qed.

Lemma effects_liftParent (P : Type) (m : UploadModal.State) (tp : Trace P) :
  effects (map (fun ep => (fst ep,
                           {| UploadModal.parent := snd ep; UploadModal.modal := m |}))
               tp)
  = effects tp.
Proof.
  unfold effects. rewrite map_map. apply map_ext. reflexivity.
Qed.

(** [handleConfirmUpload], for any [onUpload]: the selection is cleared when
    [onUpload] resolves and kept, with a console message, when it rejects. *)
Lemma UploadModal_confirm_run (P : Type)
    (onUpload : list File -> UploadOracle -> P -> Act P unit)
    (o : UploadOracle) (v : UploadModal.View P) :
  UploadModal.files (UploadModal.modal v) <> [] ->
  let out := fire (UploadModal.handleConfirmUpload P onUpload o) v in
  let up := fire (onUpload (UploadModal.files (UploadModal.modal v)) o)
                 (UploadModal.parent v) in
  UploadModal.parent (stateOf out) = stateOf up
  /\ match resultOf up with
     | Ok _ =>
         UploadModal.files (UploadModal.modal (stateOf out)) = []
         /\ effects (traceOf out) = effects (traceOf up)
     | Threw _ =>
         UploadModal.files (UploadModal.modal (stateOf out))
         = UploadModal.files (UploadModal.modal v)
         /\ effects (traceOf out)
            = effects (traceOf up) ++ [ConsoleError "Upload process failed:"]
     end.
Proof.
  intros Hne. cbv zeta.
  unfold UploadModal.handleConfirmUpload, fire.
  destruct (Nat.eqb_spec (List.length (UploadModal.files (UploadModal.modal v))) 0)
    as [E0|E0]; [apply length_zero_iff_nil in E0; congruence|].
  unfold tryCatch, bind, UploadModal.liftParent, stateOf, resultOf, traceOf.
  destruct (onUpload _ o (UploadModal.parent v) (UploadModal.parent v) [])
    as [[r p] t].
  destruct r as [[]|e]; cbn; (split; [reflexivity|]); (split; [reflexivity|]).
  - apply effects_liftParent.
  - unfold effects. rewrite map_app. cbn. f_equal.
    apply (effects_liftParent P (UploadModal.modal v) t).
Qed.

(** With [App]'s [handleUploadAndStartChat] as [onUpload], which catches
    every failure itself, confirming a non-empty selection always empties
    it, also when the start sequence failed; the parent ends as the start
    sequence leaves it and nothing is logged by the modal.  With an empty
    selection the confirmation does nothing. *)
Theorem AppPage_confirm_always_clears_selection
    (o : UploadOracle) (v : AppPage.View) :
  let out := fire (AppPage.modalHandleConfirmUpload o) v in
  match UploadModal.files (UploadModal.modal v) with
  | [] => out = (Ok tt, v, [])
  | _ :: _ =>
      UploadModal.files (UploadModal.modal (stateOf out)) = []
      /\ UploadModal.parent (stateOf out)
         = stateOf (fire (App.handleUploadAndStartChat
                            (UploadModal.files (UploadModal.modal v)) o)
                         (UploadModal.parent v))
      /\ effects (traceOf out)
         = effects (traceOf (fire (App.handleUploadAndStartChat
                                     (UploadModal.files (UploadModal.modal v)) o)
                                  (UploadModal.parent v)))
  end.
Proof.
  cbv zeta. destruct (UploadModal.files (UploadModal.modal v)) as [|f fs] eqn:Ef.
  - unfold AppPage.modalHandleConfirmUpload, UploadModal.handleConfirmUpload, fire.
    rewrite Ef. reflexivity.
  - assert (Hne : UploadModal.files (UploadModal.modal v) <> []) by (rewrite Ef; discriminate).
    pose proof (UploadModal_confirm_run App.State App.handleUploadAndStartChat o v Hne)
      as H.
    cbv zeta in H. rewrite Ef in H.
    rewrite (App_upload_returns (f :: fs) o (UploadModal.parent v)) in H.
    destruct H as (H1 & H2 & H3). unfold AppPage.modalHandleConfirmUpload.
    rewrite Ef in *. repeat split; assumption.
Qed.

(** [handleSelectSample] does nothing while a sample is loading.  Otherwise
    it ends with no sample loading and the parent untouched; it appends one
    file, named [fileName] and of the size of the fetched blob, when the
    fetch and the blob both succeed, and leaves the selection as it was on
    any failure, which it logs; a response that is not [ok] always raises the
    alert as well. *)
Theorem UploadModal_select_sample (P : Type)
    (sampleName url fileName : string) (fetched : Result UploadModal.Response)
    (v : UploadModal.View P) :
  let out := fire (UploadModal.handleSelectSample P sampleName url fileName fetched) v in
  let fs := UploadModal.files (UploadModal.modal v) in
  let fs' := UploadModal.files (UploadModal.modal (stateOf out)) in
  if truthy (UploadModal.loadingSample (UploadModal.modal v))
  then out = (Ok tt, v, [])
  else
    UploadModal.loadingSample (UploadModal.modal (stateOf out)) = None
    /\ UploadModal.parent (stateOf out) = UploadModal.parent v
    /\ resultOf out = Ok tt
    /\ match fetched with
       | Ok response =>
           if UploadModal.responseOk response
           then match UploadModal.responseBlob response with
                | Ok blob =>
                    fs' = fs ++ [ {| name := fileName;
                                     size := UploadModal.blobSize blob |} ]
                    /\ traceOf out = []
                | Threw _ =>
                    fs' = fs
                    /\ In (ConsoleError "Error fetching sample file:")
                          (effects (traceOf out))
                end
           else fs' = fs
                /\ effects (traceOf out)
                   = [ConsoleError "Error fetching sample file:";
                      Alert "Could not fetch the sample document. Please try uploading a local file instead."]
       | Threw _ =>
           fs' = fs
           /\ In (ConsoleError "Error fetching sample file:") (effects (traceOf out))
       end.
Proof.
  cbv zeta. unfold UploadModal.handleSelectSample, fire.
  destruct v as [p [fs dr ls]]. cbn [UploadModal.modal UploadModal.loadingSample].
  destruct (truthy ls) eqn:Hl; [reflexivity|].
  destruct fetched as [[okb stx [blob|e]]|e]; [destruct okb|destruct okb|].
  - cbn. repeat split; reflexivity.
  - cbn. repeat split; reflexivity.
  - destruct e as [m|tr str]; [destruct (includes m "Failed to fetch") eqn:Hi|];
      cbv -[includes]; rewrite ?Hi;
      (repeat match goal with |- _ /\ _ => split end);
      try reflexivity; left; reflexivity.
  - cbn. repeat split; reflexivity.
  - destruct e as [m|tr str]; [destruct (includes m "Failed to fetch") eqn:Hi|];
      cbv -[includes]; rewrite ?Hi;
      (repeat match goal with |- _ /\ _ => split end);
      try reflexivity; left; reflexivity.
Qed.

Lemma UploadModal_remove_file_witness :
  UploadModal.files
    (UploadModal.modal (stateOf (fire (UploadModal.handleRemoveFile App.State 0) modalOpen)))
  = [manualB]
  /\ UploadModal.files
       (UploadModal.modal (stateOf (fire (UploadModal.handleRemoveFile App.State 5) modalOpen)))
     = [manualA; manualB].
Proof.
  split.
  - destruct (UploadModal_remove_file App.State 0 modalOpen) as (_ & H & _).
    cbv zeta in H. rewrite H. reflexivity.
  - destruct (UploadModal_remove_file App.State 5 modalOpen) as (_ & _ & H & _).
    cbv zeta in H. apply H. cbn. lia.
Defined.

(** ** What is rendered, [renderContent] *)

(** After [handleEndChat] the chat view is rendered, inactive, in
    [FileSearch] mode, with an empty label, transcript and question list. *)
Theorem App_view_after_end_chat (s : App.State) :
  App.renderContent (stateOf (fire App.handleEndChat s))
  = App.ChatView
      {| App.documentNameProp := "";
         App.historyProp := [];
         App.isQueryLoadingProp := App.isQueryLoading s;
         App.exampleQuestionsProp := [];
         App.searchSourceProp := FileSearch;
         App.isChatActive := false |}
      {| App.isOpenProp := App.isUploadModalOpen s;
         App.uploadProgressProp := App.uploadProgress s |}.
Proof. rewrite App_handleEndChat_state. reflexivity. Qed.

(** A query whose remote call fails replaces the chat view by the error
    view, which shows the stored text; dismissing it with [clearError]
    brings the chat view back, in the same mode and with the transcript that
    ends in the user's message and the placeholder. *)
Theorem App_failed_query_shows_error_view
    (msg : string) (err : Thrown) (s : App.State) :
  queryIssued (App.searchSource s) (App.activeRagStoreName s) ->
  let failed := stateOf (fire (App.handleSendMessage msg (Threw err)) s) in
  App.renderContent failed
  = App.ErrorView (Some (errorText "Failed to get response" err))
  /\ exists chat modal,
       App.renderContent (stateOf (fire App.clearError failed)) = App.ChatView chat modal
       /\ App.historyProp chat = App.chatHistory s ++ [userMessage msg; errorMessage]
       /\ App.searchSourceProp chat = App.searchSource s
       /\ App.isQueryLoadingProp chat = false.
Proof.
  intros H. cbv zeta.
  destruct (App_send_failure msg err s H) as (t & E & _). rewrite E.
  cbn. split; [reflexivity|]. eexists _, _. repeat split.
Qed.

Lemma App_failed_query_shows_error_view_witness :
  App.renderContent (stateOf (fire (App.handleSendMessage "hello" (Threw (ErrorObj "503")))
                                   webChat))
  = App.ErrorView (Some "Failed to get response: 503").
Proof.
  destruct (App_failed_query_shows_error_view "hello" (ErrorObj "503") webChat)
    as [H _]; [left; reflexivity|].
  cbv zeta in H. rewrite H. reflexivity.
Defined.

(** After a start sequence that succeeded with a usable handle, fired from
    the chat view, the chat view is rendered with the chat active, an empty
    transcript, the generated questions, the modal closed and no progress;
    the label is the session label in [FileSearch] mode. *)
Theorem App_view_after_start
    (files : list File) (o : UploadOracle) (s : App.State) (h : string) :
  files <> [] ->
  allStepsSucceed (List.length files) o = true ->
  created o = Ok h ->
  h <> "" ->
  exists chat,
    App.renderContent (stateOf (fire (App.handleUploadAndStartChat files o) s))
    = App.ChatView chat {| App.isOpenProp := false; App.uploadProgressProp := None |}
    /\ App.isChatActive chat = true
    /\ App.historyProp chat = []
    /\ questions o = Ok (App.exampleQuestionsProp chat)
    /\ (App.searchSource s = FileSearch -> App.documentNameProp chat = docName files).
Proof.
  intros Hne Hall Hc Hh.
  destruct (App_upload_success files o s Hne Hall) as (h' & qs & t & Hc' & Hq & E & _).
  assert (h' = h) by congruence. subst h'. rewrite E. cbn.
  destruct h as [|c h]; [congruence|].
  eexists. split; [reflexivity|]. cbn.
  repeat split; try assumption. intros ->. reflexivity.
Qed.

Lemma App_view_after_start_witness :
  exists chat,
    App.renderContent
      (stateOf (fire (App.handleUploadAndStartChat [manualA; manualB] goodOracle) idleApp))
    = App.ChatView chat {| App.isOpenProp := false; App.uploadProgressProp := None |}
    /\ App.isChatActive chat = true
    /\ App.documentNameProp chat = "a.pdf & b.pdf".
Proof.
  destruct (App_view_after_start [manualA; manualB] goodOracle idleApp
              "fileSearchStores/s1") as (chat & H1 & H2 & _ & _ & H5);
    [discriminate | vm_compute; reflexivity | reflexivity | discriminate | ].
  exists chat. split; [exact H1|]. split; [exact H2|].
  rewrite (H5 eq_refl). reflexivity.
Defined.

(** ** What holds between two handlers, on every run *)

Lemma AppPage_step_keeps_rest (e : AppPage.Event) (v v' : AppPage.View) :
  restInvariant (UploadModal.parent v) ->
  AppPage.step e v = Some v' ->
  restInvariant (UploadModal.parent v').
Proof.
  intros HI Hstep. unfold AppPage.step in Hstep.
  destruct (AppPage.enabled e v) eqn:En; [|discriminate].
  inversion Hstep; subst v'; clear Hstep.
  rewrite AppPage_parent_remount.
  destruct v as [s m].
  destruct e; cbn [AppPage.handler];
    try (rewrite AppPage_parent_ofApp; cbn [UploadModal.parent] in * ).
  - crush_rest s.
  - crush_rest s.
  - crush_rest s.
  - crush_rest s.
  - destruct reply; crush_rest s.
  - destruct source, fetched; crush_rest s.
  - destruct picked; exact HI.
  - exact HI.
  - assert (Hne : UploadModal.files m <> []).
    { cbn in En. apply andb_prop in En as [_ En].
      destruct (UploadModal.files m); [discriminate|discriminate]. }
    assert (Hst : App.status s <> Error).
    { cbn in En. intros Hs. unfold AppPage.rendersForm, AppPage.rendersModal,
        AppPage.rendersChat in En. cbn in En. rewrite Hs in En. discriminate. }
    rewrite AppPage_parent_confirm by exact Hne.
    cbn [UploadModal.parent UploadModal.modal] in *.
    destruct (allStepsSucceed (List.length (UploadModal.files m)) o) eqn:Hall.
    + destruct (App_upload_success (UploadModal.files m) o s Hne Hall)
        as (h & qs & t & _ & _ & E & _).
      rewrite E. unfold restInvariant in *. cbn.
      destruct HI as (H1 & H2 & H3 & H4 & H5).
      repeat split; auto; try discriminate.
    + destruct (App_upload_failure (UploadModal.files m) o s Hne Hall)
        as (e & t & E & _).
      rewrite E. unfold restInvariant in *. cbn.
      destruct HI as (H1 & H2 & H3 & H4 & H5).
      destruct (App.status s); try congruence; cbn;
        (repeat match goal with |- _ /\ _ => split end);
        auto; try discriminate.
  - unfold AppPage.modalHandleClose, UploadModal.handleClose, fire.
    cbn [UploadModal.parent].
    destruct (App.uploadProgress s) eqn:Eu; [exact HI|].
    crush_rest s.
  - destruct outcome; crush_rest s.
Qed.

Lemma AppPage_run_keeps_rest (es : list AppPage.Event) :
  forall v0 v,
    restInvariant (UploadModal.parent v0) ->
    AppPage.run es v0 = Some v ->
    restInvariant (UploadModal.parent v).
Proof.
  induction es as [|e es IH]; intros v0 v HI Hrun; cbn in Hrun.
  - inversion Hrun; subst. exact HI.
  - destruct (AppPage.step e v0) as [v1|] eqn:Hs; [|discriminate].
    apply (IH v1 v); [|exact Hrun].
    apply (AppPage_step_keeps_rest e v0 v1); assumption.
Qed.

(** In every state src/App.tsx reaches, between two handlers: no progress
    record is left, no query is marked as loading, the status is not
    [Uploading], and the error view has a text to show. *)
Theorem App_reachable_at_rest (v : AppPage.View) :
  AppPage.reachable v ->
  App.uploadProgress (UploadModal.parent v) = None
  /\ App.isQueryLoading (UploadModal.parent v) = false
  /\ App.status (UploadModal.parent v) <> Uploading
  /\ (App.status (UploadModal.parent v) = Error ->
      App.error (UploadModal.parent v) <> None).
Proof.
  intros [es Hrun].
  assert (H0 : restInvariant (UploadModal.parent AppPage.initial)).
  { unfold restInvariant. cbn. repeat split; try discriminate; intros; congruence. }
  destruct (AppPage_run_keeps_rest es AppPage.initial v H0 Hrun)
    as (H1 & H2 & H3 & H4 & _).
  repeat split; assumption.
Qed.

(** In every state src/App.tsx reaches, [FileSearch] mode with a null
    handle means an empty session: no transcript, no suggested questions, no
    label. *)
Theorem App_reachable_idle_is_empty (v : AppPage.View) :
  AppPage.reachable v ->
  App.searchSource (UploadModal.parent v) = FileSearch ->
  App.activeRagStoreName (UploadModal.parent v) = None ->
  App.chatHistory (UploadModal.parent v) = []
  /\ App.exampleQuestions (UploadModal.parent v) = []
  /\ App.documentName (UploadModal.parent v) = "".
Proof.
  intros [es Hrun].
  assert (H0 : restInvariant (UploadModal.parent AppPage.initial)).
  { unfold restInvariant. cbn. repeat split; try discriminate; intros; congruence. }
  destruct (AppPage_run_keeps_rest es AppPage.initial v H0 Hrun)
    as (_ & _ & _ & _ & H5).
  exact H5.
Qed.

Lemma App_reachable_at_rest_witness :
  AppPage.reachable afterUploadFromWeb
  /\ App.uploadProgress (UploadModal.parent afterUploadFromWeb) = None
  /\ App.isQueryLoading (UploadModal.parent afterUploadFromWeb) = false.
Proof.
  assert (Hr : AppPage.reachable afterUploadFromWeb)
    by (exists uploadFromWeb; vm_compute; reflexivity).
  destruct (App_reachable_at_rest afterUploadFromWeb Hr) as (H1 & H2 & _).
  split; [exact Hr|]. split; [exact H1 | exact H2].
Defined.

Lemma App_reachable_idle_is_empty_witness :
  AppPage.reachable afterNewChat
  /\ App.chatHistory (UploadModal.parent afterNewChat) = []
  /\ App.exampleQuestions (UploadModal.parent afterNewChat) = []
  /\ App.documentName (UploadModal.parent afterNewChat) = "".
Proof.
  assert (Hr : AppPage.reachable afterNewChat)
    by (exists webThenNewChat; vm_compute; reflexivity).
  split; [exact Hr|].
  apply (App_reachable_idle_is_empty afterNewChat Hr); vm_compute; reflexivity.
Defined.

Lemma AppKey_upload_nothing (o : UploadOracle) (s : AppKey.State) :
  AppKey.isApiKeySelected s = true ->
  fire (AppKey.handleUploadAndStartChat [] o) s = (Ok tt, s, []).
Proof.
  intros Hk. unfold fire, AppKey.handleUploadAndStartChat. rewrite Hk. reflexivity.
Qed.

Lemma AppKeyPage_step_keeps_rest (e : AppKeyPage.Event) (s s' : AppKey.State) :
  restInvariantKey s ->
  AppKeyPage.step e s = Some s' ->
  restInvariantKey s'.
Proof.
  intros HI Hstep. unfold AppKeyPage.step in Hstep.
  destruct (AppKeyPage.enabled e s) eqn:En; [|discriminate].
  inversion Hstep; subst s'; clear Hstep.
  destruct e; cbn [AppKeyPage.handler].
  - destruct w as [[[[|]|e]|] ok]; crush_rest_key s.
  - destruct w as [[[[|]|e]|] ok]; crush_rest_key s.
  - destruct w as [[[[|]|e]|] [[[]|e']|]]; crush_rest_key s.
  - crush_rest_key s.
  - crush_rest_key s.
  - crush_rest_key s.
  - destruct reply; crush_rest_key s.
  - destruct source, fetched; crush_rest_key s.
  - assert (Hst : AppKey.status s <> Error).
    { intros Hs. cbn in En. unfold AppKeyPage.rendersModal, AppKeyPage.rendersChat in En.
      rewrite Hs in En. discriminate. }
    destruct (AppKey.isApiKeySelected s) eqn:Hk.
    + destruct files as [|f fs].
      * rewrite (AppKey_upload_nothing o s Hk). exact HI.
      * assert (Hne : f :: fs <> []) by discriminate.
        destruct (allStepsSucceed (List.length (f :: fs)) o) eqn:Hall.
        -- destruct (AppKey_upload_success (f :: fs) o s Hk Hne Hall)
             as (h & qs & t & _ & _ & E & _).
           rewrite E. unfold restInvariantKey in *. cbn [stateOf fst snd].
           destruct HI as (H1 & H2 & H3 & H4 & H5). cbn.
           repeat split; auto; try discriminate.
        -- destruct (AppKey_upload_failure (f :: fs) o s Hk Hne Hall)
             as (e & t & E & _).
           rewrite E. unfold restInvariantKey in *. cbn [stateOf fst snd].
           destruct HI as (H1 & H2 & H3 & H4 & H5).
           destruct (AppKey.status s); try congruence;
             destruct (AppKey.isApiKeyFailure e); cbn;
             (repeat match goal with |- _ /\ _ => split end);
             auto; try discriminate.
    + rewrite (AppKey_upload_without_key files o s Hk).
      unfold restInvariantKey in *. cbn. exact HI.
  - crush_rest_key s.
  - destruct outcome; crush_rest_key s.
Qed.

Lemma AppKeyPage_run_keeps_rest (es : list AppKeyPage.Event) :
  forall s0 s,
    restInvariantKey s0 ->
    AppKeyPage.run es s0 = Some s ->
    restInvariantKey s.
Proof.
  induction es as [|e es IH]; intros s0 s HI Hrun; cbn in Hrun.
  - inversion Hrun; subst. exact HI.
  - destruct (AppKeyPage.step e s0) as [s1|] eqn:Hs; [|discriminate].
    apply (IH s1 s); [|exact Hrun].
    apply (AppKeyPage_step_keeps_rest e s0 s1); assumption.
Qed.

(** The same holds of src/unnamed/part_000 in every state it reaches: no
    progress record, no query loading, not [Uploading], an error view with a
    text, and an empty session whenever the mode is [FileSearch] and the
    handle null. *)
Theorem AppKey_reachable_at_rest (s : AppKey.State) :
  AppKeyPage.reachable s ->
  AppKey.uploadProgress s = None
  /\ AppKey.isQueryLoading s = false
  /\ AppKey.status s <> Uploading
  /\ (AppKey.status s = Error -> AppKey.error s <> None)
  /\ (AppKey.searchSource s = FileSearch -> AppKey.activeRagStoreName s = None ->
      AppKey.chatHistory s = [] /\ AppKey.exampleQuestions s = []
      /\ AppKey.documentName s = "").
Proof.
  intros [es Hrun].
  assert (H0 : restInvariantKey AppKey.initial).
  { unfold restInvariantKey. cbn. repeat split; try discriminate; intros; congruence. }
  exact (AppKeyPage_run_keeps_rest es AppKey.initial s H0 Hrun).
Qed.

Lemma AppKey_reachable_at_rest_witness :
  AppKeyPage.reachable afterNewChatKeyed
  /\ AppKey.uploadProgress afterNewChatKeyed = None
  /\ AppKey.chatHistory afterNewChatKeyed = [].
Proof.
  assert (Hr : AppKeyPage.reachable afterNewChatKeyed)
    by (exists webThenNewChatKeyed; vm_compute; reflexivity).
  destruct (AppKey_reachable_at_rest afterNewChatKeyed Hr) as (H1 & _ & _ & _ & H5).
  split; [exact Hr|]. split; [exact H1|].
  apply H5; vm_compute; reflexivity.
Defined.

Lemma App_handle_invariant_under_overlay_witness :
  AppPage.runOverlay uploadFromWeb AppPage.initial false = Some (afterUploadFromWeb, true)
  /\ AppPage.handleInvariant afterUploadFromWeb true.
Proof.
  assert (Hrun : AppPage.runOverlay uploadFromWeb AppPage.initial false
                 = Some (afterUploadFromWeb, true)) by (vm_compute; reflexivity).
  split; [exact Hrun|].
  exact (App_handle_invariant_under_overlay uploadFromWeb afterUploadFromWeb true Hrun).
Defined.
